(** * SmartTimers: a shallow embedding of [SmartTimers.py]

    The program is a PySide6 multi-timer.  Its behaviour lives in four
    classes: [SoundPlayer], [AlarmOverlay], [TimerWidget] and [MainWindow],
    and one formatting helper, [humanize].  Each of them is embedded below
    as a record of the fields the methods read and write, and each method
    as a function on that record.

    Conventions of the embedding:
    - Python [int] is [Z]; the float that [time.time()] returns, and the
      [remaining] counter once a float has been subtracted from it, are
      exact rationals [Q] (an [int] n is the rational n/1), so the
      subtractions of [_on_tick] are taken without rounding;
    - [time.time()] is an explicit argument [now] of the methods that call
      it, so a theorem quantifies over every clock reading;
    - a Qt signal emission is a value of [Signal] returned by the widget
      method; the shell delivers it to the slot that [add_timer] connected;
    - the calls into the toolkit that a user can observe (sound, beep,
      tray balloon, overlay, status bar) are collected in a log;
    - text is [string], one [ascii] per character (code points below 256). *)

From Stdlib Require Import ZArith QArith Qround String Ascii List Bool Lia Lqa.
From Stdlib Require Import DecimalString DecimalN.
From stdpp Require Import base list.

Local Open Scope string_scope.
Local Open Scope Z_scope.
Local Open Scope list_scope.

(** ** Utilities *)

Module Py.

(** [str(n)] for an [int]: decimal digits, with a leading minus sign. *)
Definition str_int (n : Z) : string :=
  NilZero.string_of_int (Z.to_int n).

(** [s.zfill(w)] restricted to strings without a sign. *)
Fixpoint zeros (k : nat) : string :=
  match k with
  | O => EmptyString
  | S k' => String "0" (zeros k')
  end.

Definition zfill (w : nat) (s : string) : string :=
  String.append (zeros (w - String.length s)) s.

(** The format specification [{n:02d}]: the decimal digits of [n], padded
    with zeros on the left to a width of two; the sign, when there is
    one, counts for the width and stays in front. *)
Definition fmt_02d (n : Z) : string :=
  if n <? 0
  then String "-" (zfill 1 (NilZero.string_of_uint (N.to_uint (Z.to_N (Z.abs n)))))
  else zfill 2 (NilZero.string_of_uint (N.to_uint (Z.to_N n))).

(** [str.isspace] on one character, for the code points below 256. *)
Definition isspace (c : ascii) : bool :=
  let n := Z.of_nat (nat_of_ascii c) in
  ((9 <=? n) && (n <=? 13)) || ((28 <=? n) && (n <=? 32))
  || (n =? 133) || (n =? 160).

Fixpoint lstrip (s : string) : string :=
  match s with
  | EmptyString => EmptyString
  | String c s' => if isspace c then lstrip s' else s
  end.

(** [rstrip] drops the longest suffix of white space: a character is kept
    when something after it is kept or when it is not white space. *)
Fixpoint rstrip (s : string) : string :=
  match s with
  | EmptyString => EmptyString
  | String c s' =>
      match rstrip s' with
      | EmptyString => if isspace c then EmptyString else String c EmptyString
      | r => String c r
      end
  end.

Definition strip (s : string) : string := rstrip (lstrip s).

(** [s or d] on strings: the empty string is the only false one. *)
Definition str_or (s d : string) : string :=
  match s with
  | EmptyString => d
  | _ => s
  end.

(** [int(x)] on a float: truncation towards zero. *)
Definition int (x : Q) : Z := Z.quot (Qnum x) (Z.pos (Qden x)).

(** [max(a, b)] on integers. *)
Definition max (a b : Z) : Z := Z.max a b.

End Py.

(** [humanize(seconds)]; [//] and [%] are floor division and its remainder,
    which is what [Z.div] and [Z.modulo] are for a positive divisor. *)
Definition humanize (seconds : Z) : string :=
  let seconds := if seconds <? 0 then 0 else seconds in
  let h := seconds / 3600 in
  let m := (seconds mod 3600) / 60 in
  let s := seconds mod 60 in
  if negb (h =? 0)
  then (Py.fmt_02d h ++ ":" ++ Py.fmt_02d m ++ ":" ++ Py.fmt_02d s)%string
  else (Py.fmt_02d m ++ ":" ++ Py.fmt_02d s)%string.

(** ** Timer item widget *)

(** The two signals of [TimerWidget]. *)
Inductive Signal : Type :=
| changed
| finished.

(** The icon of the start/pause button. *)
Inductive Icon : Type :=
| icon_play
| icon_pause.

(** The fields of a [TimerWidget] that its methods read or write.
    [title_edit] and [repeat_chk] hold the text and the check state of the
    two child widgets; [time_lbl] the text of the label; [progress_range]
    and [progress_value] the arguments of the latest [setRange] and
    [setValue] on the progress bar; [_tick] whether the widget's [QTimer]
    is started; [_last] is the attribute [start] creates, absent before. *)
Record TimerWidget : Type := mkTimerWidget {
  title_edit : string;
  repeat_chk : bool;
  remaining : Q;
  total : Z;
  running : bool;
  time_lbl : string;
  progress_range : Z * Z;
  progress_value : Z;
  btn_start : Icon;
  _tick : bool;
  _last : option Q
}.

Module TimerWidget.

Definition with_remaining (r : Q) (w : TimerWidget) : TimerWidget :=
  mkTimerWidget (title_edit w) (repeat_chk w) r (total w) (running w)
    (time_lbl w) (progress_range w) (progress_value w) (btn_start w)
    (_tick w) (_last w).

Definition with_total (t : Z) (w : TimerWidget) : TimerWidget :=
  mkTimerWidget (title_edit w) (repeat_chk w) (remaining w) t (running w)
    (time_lbl w) (progress_range w) (progress_value w) (btn_start w)
    (_tick w) (_last w).

Definition with_running (b : bool) (w : TimerWidget) : TimerWidget :=
  mkTimerWidget (title_edit w) (repeat_chk w) (remaining w) (total w) b
    (time_lbl w) (progress_range w) (progress_value w) (btn_start w)
    (_tick w) (_last w).

Definition with_time_lbl (s : string) (w : TimerWidget) : TimerWidget :=
  mkTimerWidget (title_edit w) (repeat_chk w) (remaining w) (total w)
    (running w) s (progress_range w) (progress_value w) (btn_start w)
    (_tick w) (_last w).

Definition with_progress_range (r : Z * Z) (w : TimerWidget) : TimerWidget :=
  mkTimerWidget (title_edit w) (repeat_chk w) (remaining w) (total w)
    (running w) (time_lbl w) r (progress_value w) (btn_start w)
    (_tick w) (_last w).

Definition with_progress_value (v : Z) (w : TimerWidget) : TimerWidget :=
  mkTimerWidget (title_edit w) (repeat_chk w) (remaining w) (total w)
    (running w) (time_lbl w) (progress_range w) v (btn_start w)
    (_tick w) (_last w).

Definition with_btn_start (i : Icon) (w : TimerWidget) : TimerWidget :=
  mkTimerWidget (title_edit w) (repeat_chk w) (remaining w) (total w)
    (running w) (time_lbl w) (progress_range w) (progress_value w) i
    (_tick w) (_last w).

Definition with_tick (b : bool) (w : TimerWidget) : TimerWidget :=
  mkTimerWidget (title_edit w) (repeat_chk w) (remaining w) (total w)
    (running w) (time_lbl w) (progress_range w) (progress_value w)
    (btn_start w) b (_last w).

Definition with_last (l : option Q) (w : TimerWidget) : TimerWidget :=
  mkTimerWidget (title_edit w) (repeat_chk w) (remaining w) (total w)
    (running w) (time_lbl w) (progress_range w) (progress_value w)
    (btn_start w) (_tick w) l.

(** [__init__(title, seconds, repeat)].  No signal reaches the shell from
    here: the widget's signals are connected by [add_timer] afterwards. *)
Definition __init__ (title : string) (seconds : Z) (repeat : bool)
  : TimerWidget :=
  let total := Py.max 1 seconds in
  {| title_edit := Py.str_or title "Timer";
     repeat_chk := repeat;
     remaining := inject_Z seconds;
     total := total;
     running := false;
     time_lbl := humanize seconds;
     progress_range := (0, total);
     progress_value := total - seconds;
     btn_start := icon_play;
     _tick := false;
     _last := None |}.

(** [set_seconds(seconds)].  The argument is an [int] at every call, so
    [total - remaining] and [humanize(remaining)] are taken on it. *)
Definition set_seconds (seconds : Z) (w : TimerWidget)
  : TimerWidget * list Signal :=
  let w := with_remaining (inject_Z seconds) w in
  let w := with_total (Py.max 1 seconds) w in
  let w := with_progress_range (0, total w) w in
  let w := with_progress_value (total w - seconds) w in
  let w := with_time_lbl (humanize seconds) w in
  (w, [changed]).

(** [start()], with the value of its [time.time()]. *)
Definition start (now : Q) (w : TimerWidget) : TimerWidget :=
  let w := with_running true w in
  let w := with_last (Some now) w in
  let w := with_tick true w in
  with_btn_start icon_pause w.

Definition pause (w : TimerWidget) : TimerWidget :=
  let w := with_running false w in
  let w := with_tick false w in
  with_btn_start icon_play w.

(** [toggle()]; the clock is read on the [start] branch only. *)
Definition toggle (now : Q) (w : TimerWidget) : TimerWidget :=
  if running w then pause w else start now w.

Definition reset (w : TimerWidget) : TimerWidget * list Signal :=
  let w := pause w in
  set_seconds (total w) w.

(** [_on_delete()]: the part on the widget's own fields; leaving the
    layout is the shell's side of [setParent(None)]. *)
Definition _on_delete (w : TimerWidget) : TimerWidget * list Signal :=
  let w := with_running false w in
  let w := with_tick false w in
  (w, [changed]).

(** [_on_tick()], with the value of its [time.time()]. *)
Definition _on_tick (now : Q) (w : TimerWidget)
  : TimerWidget * list Signal :=
  let dt := (now - match _last w with Some l => l | None => now end)%Q in
  let w := with_last (Some now) w in
  let w := with_remaining (remaining w - dt)%Q w in
  if Qle_bool (remaining w) 0
  then
    let w := with_remaining 0%Q w in
    let w := with_progress_value (total w) w in
    let w := with_time_lbl (humanize 0) w in
    let w := pause w in
    (w, [finished])
  else
    let w := with_time_lbl (humanize (Py.int (remaining w))) w in
    let w := with_progress_value (total w - Py.int (remaining w)) w in
    (w, []).

Definition with_title_edit (s : string) (w : TimerWidget) : TimerWidget :=
  mkTimerWidget s (repeat_chk w) (remaining w) (total w) (running w)
    (time_lbl w) (progress_range w) (progress_value w) (btn_start w)
    (_tick w) (_last w).

Definition with_repeat_chk (b : bool) (w : TimerWidget) : TimerWidget :=
  mkTimerWidget (title_edit w) b (remaining w) (total w) (running w)
    (time_lbl w) (progress_range w) (progress_value w) (btn_start w)
    (_tick w) (_last w).

(** The user edits the title.  [textChanged] carries the new text and is
    connected to [changed.emit], which takes no argument: the call raises
    [TypeError] inside the slot, the toolkit reports it and goes on, and
    [changed] is not emitted.  The text is the new one all the same. *)
Definition title_typed (text : string) (w : TimerWidget)
  : TimerWidget * list Signal :=
  (with_title_edit text w, []).

(** The user clicks the repeat box.  [stateChanged] carries the new state
    and is connected to [changed.emit] in the same way: [changed] is not
    emitted. *)
Definition repeat_clicked (checked : bool) (w : TimerWidget)
  : TimerWidget * list Signal :=
  (with_repeat_chk checked w, []).

End TimerWidget.

(** ** The toolkit as the shell sees it *)

(** The toolkit calls a user can perceive.  [tray_showMessage] carries the
    title, the message and the duration in milliseconds;
    [statusBar_showMessage] the message and its duration. *)
Inductive ToolkitCall : Type :=
| effect_stop
| effect_play
| QApplication_beep
| tray_showMessage (title message : string) (msecs : Z)
| statusBar_showMessage (message : string) (msecs : Z).

(** One entry of the log: the call made, and whether it raised. *)
Record Entry : Type := mkEntry {
  call : ToolkitCall;
  raised : bool
}.

Definition ok (c : ToolkitCall) : Entry := mkEntry c false.
Definition failed (c : ToolkitCall) : Entry := mkEntry c true.

(** What the toolkit does when called inside one of the program's
    [try] blocks: whether [QSoundEffect.stop], [QSoundEffect.play] and
    [QSystemTrayIcon.showMessage] raise an [Exception]. *)
Record Toolkit : Type := mkToolkit {
  stop_raises : bool;
  play_raises : bool;
  showMessage_raises : bool
}.

(** ** Sound player *)

Record QSoundEffect : Type := mkQSoundEffect {
  source : string;
  loopCount : Z;
  volume : Q
}.

Record SoundPlayer : Type := mkSoundPlayer {
  temp_wav : string;
  effect : option QSoundEffect
}.

Module SoundPlayer.

(** [__init__]: [HAS_SOUND] is the outcome of the import at the top of
    the file, [ctor_raises] whether building the effect raised, [path]
    what [_ensure_beep_wav] returned. *)
Definition __init__ (HAS_SOUND ctor_raises : bool) (path : string)
  : SoundPlayer :=
  {| temp_wav := path;
     effect :=
       if HAS_SOUND
       then if ctor_raises then None
            else Some (mkQSoundEffect path 1 (6 # 10))
       else None |}.

(** [play()]: the calls it makes, in order. *)
Definition play (tk : Toolkit) (sp : SoundPlayer) : list Entry :=
  match effect sp with
  | Some _ =>
      if stop_raises tk
      then [failed effect_stop; ok QApplication_beep]
      else if play_raises tk
           then [ok effect_stop; failed effect_play; ok QApplication_beep]
           else [ok effect_stop; ok effect_play]
  | None => [ok QApplication_beep]
  end.

End SoundPlayer.

(** An entry is an audible cue when it is a sound-effect play or an
    application beep that returned. *)
Definition audible (e : Entry) : bool :=
  negb (raised e) &&
  match call e with
  | effect_play | QApplication_beep => true
  | _ => false
  end.

Definition is_balloon (e : Entry) : bool :=
  match call e with
  | tray_showMessage _ _ _ => true
  | _ => false
  end.

(** ** Alarm overlay *)

(** What a button of the overlay does when clicked. *)
Inductive OverlayAction : Type :=
| snooze (minutes : Z)
| dismiss.

(** The two signals of [AlarmOverlay]. *)
Inductive OverlaySignal : Type :=
| snoozeRequested (minutes : Z)
| dismissed.

(** [modal] is the window modality set in [__init__]; [visible] and
    [fullscreen] are what [showFullScreen] and [hide] change. *)
Record AlarmOverlay : Type := mkAlarmOverlay {
  _title : string;
  modal : bool;
  visible : bool;
  fullscreen : bool
}.

Module AlarmOverlay.

Definition __init__ (title : string) : AlarmOverlay :=
  {| _title := title; modal := true; visible := false; fullscreen := false |}.

(** The label under the heading: [self._title.strip() or "Timer"]. *)
Definition subtitle (ov : AlarmOverlay) : string :=
  Py.str_or (Py.strip (_title ov)) "Timer".

(** The three buttons [__init__] lays out, with what each is connected to. *)
Definition buttons : list (string * OverlayAction) :=
  [("Snooze 5 min", snooze 5); ("Snooze 10 min", snooze 10);
   ("Dismiss", dismiss)].

Definition show_full (ov : AlarmOverlay) : AlarmOverlay :=
  mkAlarmOverlay (_title ov) (modal ov) true true.

Definition hide (ov : AlarmOverlay) : AlarmOverlay :=
  mkAlarmOverlay (_title ov) (modal ov) false (fullscreen ov).

Definition _on_snooze (minutes : Z) (ov : AlarmOverlay)
  : AlarmOverlay * list OverlaySignal :=
  (hide ov, [snoozeRequested minutes]).

Definition _on_dismiss (ov : AlarmOverlay)
  : AlarmOverlay * list OverlaySignal :=
  (hide ov, [dismissed]).

Definition click (a : OverlayAction) (ov : AlarmOverlay)
  : AlarmOverlay * list OverlaySignal :=
  match a with
  | snooze minutes => _on_snooze minutes ov
  | dismiss => _on_dismiss ov
  end.

End AlarmOverlay.

(** ** Main window *)

Inductive QSystemTrayIcon : Type :=
| tray_icon.

(** The fields of [MainWindow] its methods read or write: the sound
    player, the mute check box, the inputs of the add-timer form, the
    timer widgets of [list_layout] in layout order, whether [clear_btn] is
    enabled, the tray icon ([None] when no system tray is available) and
    the latest overlay. *)
Record MainWindow : Type := mkMainWindow {
  sound : SoundPlayer;
  mute_chk : bool;
  name_edit : string;
  h_spin : Z;
  m_spin : Z;
  s_spin : Z;
  repeat_new : bool;
  list_layout : list TimerWidget;
  clear_btn : bool;
  tray : option QSystemTrayIcon;
  _overlay : option AlarmOverlay
}.

(** A slot of the shell: it updates the window and makes toolkit calls. *)
Definition UI (A : Type) : Type := MainWindow -> A * MainWindow * list Entry.

#[export] Instance UI_ret : MRet UI :=
  fun A (a : A) mw => (a, mw, []).

#[export] Instance UI_bind : MBind UI :=
  fun A B (f : A -> UI B) (m : UI A) mw =>
    let '(a, mw1, log1) := m mw in
    let '(b, mw2, log2) := f a mw1 in
    (b, mw2, log1 ++ log2).

Definition get : UI MainWindow := fun mw => (mw, mw, []).
Definition modify (f : MainWindow -> MainWindow) : UI unit :=
  fun mw => (tt, f mw, []).
Definition tell (log : list Entry) : UI unit := fun mw => (tt, mw, log).

(** The window and the log a slot leaves behind. *)
Definition window {A} (r : A * MainWindow * list Entry) : MainWindow :=
  snd (fst r).
Definition calls {A} (r : A * MainWindow * list Entry) : list Entry :=
  snd r.

Fixpoint for_each {A} (f : A -> UI unit) (l : list A) : UI unit :=
  match l with
  | [] => mret tt
  | x :: l' => f x ;; for_each f l'
  end.

Module MainWindow.

Definition with_form (name : string) (h m s : Z) (rep : bool)
    (mw : MainWindow) : MainWindow :=
  mkMainWindow (sound mw) (mute_chk mw) name h m s rep
    (list_layout mw) (clear_btn mw) (tray mw) (_overlay mw).

Definition with_list_layout (l : list TimerWidget) (mw : MainWindow)
  : MainWindow :=
  mkMainWindow (sound mw) (mute_chk mw) (name_edit mw) (h_spin mw)
    (m_spin mw) (s_spin mw) (repeat_new mw) l (clear_btn mw) (tray mw)
    (_overlay mw).

Definition with_clear_btn (b : bool) (mw : MainWindow) : MainWindow :=
  mkMainWindow (sound mw) (mute_chk mw) (name_edit mw) (h_spin mw)
    (m_spin mw) (s_spin mw) (repeat_new mw) (list_layout mw) b (tray mw)
    (_overlay mw).

Definition with_overlay (o : option AlarmOverlay) (mw : MainWindow)
  : MainWindow :=
  mkMainWindow (sound mw) (mute_chk mw) (name_edit mw) (h_spin mw)
    (m_spin mw) (s_spin mw) (repeat_new mw) (list_layout mw)
    (clear_btn mw) (tray mw) o.

(** A method call on the widget at position [i] of the layout: the
    widget is updated in place and the signals it emitted are returned. *)
Definition on_widget (i : nat)
    (f : TimerWidget -> TimerWidget * list Signal) : UI (list Signal) :=
  fun mw =>
    match list_layout mw !! i with
    | Some w =>
        let '(w', sigs) := f w in
        (sigs, with_list_layout (<[i := w']> (list_layout mw)) mw, [])
    | None => ([], mw, [])
    end.

(** [_on_list_changed()]: every item of the layout is a [TimerWidget]. *)
Definition _on_list_changed : UI unit :=
  modify (fun mw =>
    let has_items := existsb (fun _ => true) (list_layout mw) in
    with_clear_btn has_items mw).

(** [add_timer(title, seconds, repeat)]; [addWidget] appends. *)
Definition add_timer (title : string) (seconds : Z) (repeat : bool)
  : UI unit :=
  let w := TimerWidget.__init__ title seconds repeat in
  modify (fun mw => with_list_layout (list_layout mw ++ [w]) mw) ;;
  _on_list_changed.

(** [add_timer_from_inputs()]. *)
Definition add_timer_from_inputs : UI unit :=
  mw ← get;
  let '(h, m, s) := (h_spin mw, m_spin mw, s_spin mw) in
  let total := h * 3600 + m * 60 + s in
  if total <=? 0
  then tell [ok (statusBar_showMessage
                   "Please set a duration greater than 0." 3000)]
  else
    let name := Py.str_or (Py.strip (name_edit mw)) "Timer" in
    add_timer name total (repeat_new mw) ;;
    modify (with_form "" 0 0 0 false).

(** [_notify(title)]. *)
Definition _notify (tk : Toolkit) (title : string) : UI unit :=
  mw ← get;
  (if negb (mute_chk mw) then tell (SoundPlayer.play tk (sound mw))
   else mret tt) ;;
  match tray mw with
  | Some _ =>
      tell [mkEntry
              (tray_showMessage "SmartTimers"
                 (Py.str_or title "Timer" ++ " is done.")%string 5000)
              (showMessage_raises tk)]
  | None => mret tt
  end ;;
  modify (with_overlay
            (Some (AlarmOverlay.show_full (AlarmOverlay.__init__ title)))).

(** [_on_timer_finished(w)], for the widget at position [i]; [now] is the
    clock reading of the [start] of a repeating timer.  [set_seconds]
    emits [changed], whose slot is [_on_list_changed]. *)
Definition _on_timer_finished (tk : Toolkit) (i : nat) (now : Q)
  : UI unit :=
  mw ← get;
  match list_layout mw !! i with
  | None => mret tt
  | Some w =>
      let title := Py.str_or (Py.strip (title_edit w)) "Timer" in
      _notify tk title ;;
      if repeat_chk w
      then
        sigs ← on_widget i
                 (fun w => TimerWidget.set_seconds (total w) w);
        for_each (fun _ => _on_list_changed) sigs ;;
        on_widget i (fun w => (TimerWidget.start now w, [])) ;;
        mret tt
      else mret tt
  end.

(** [_on_snooze(minutes)]. *)
Definition _on_snooze (minutes : Z) : UI unit :=
  let label := ("Snooze (" ++ Py.str_int minutes ++ " min)")%string in
  add_timer label (minutes * 60) false.

(** *** The connections

    What the event loop runs for each thing that can happen to the
    window, following the [connect] calls of the program. *)

(** Delivery of a signal of the widget at position [i]. *)
Definition deliver (tk : Toolkit) (i : nat) (now : Q) (s : Signal)
  : UI unit :=
  match s with
  | changed => _on_list_changed
  | finished => _on_timer_finished tk i now
  end.

(** The [QTimer] of the widget at position [i] fires; it does so only
    while it is started.  [now] is the clock reading inside [_on_tick],
    [now'] the later one inside [start] when the timer repeats. *)
Definition tick_timeout (tk : Toolkit) (i : nat) (now now' : Q)
  : UI unit :=
  mw ← get;
  match list_layout mw !! i with
  | Some w =>
      if _tick w
      then sigs ← on_widget i (TimerWidget._on_tick now);
           for_each (deliver tk i now') sigs
      else mret tt
  | None => mret tt
  end.

(** A click on the start/pause button of the widget at position [i]. *)
Definition start_clicked (i : nat) (now : Q) : UI unit :=
  on_widget i (fun w => (TimerWidget.toggle now w, [])) ;; mret tt.

(** A click on its reset button. *)
Definition reset_clicked (tk : Toolkit) (i : nat) (now : Q) : UI unit :=
  sigs ← on_widget i TimerWidget.reset;
  for_each (deliver tk i now) sigs.

(** A click on a button of the overlay on screen. *)
Definition overlay_clicked (a : OverlayAction) : UI unit :=
  mw ← get;
  match _overlay mw with
  | Some ov =>
      let '(ov', sigs) := AlarmOverlay.click a ov in
      modify (with_overlay (Some ov')) ;;
      for_each (fun s => match s with
                         | snoozeRequested minutes => _on_snooze minutes
                         | dismissed => mret tt
                         end) sigs
  | None => mret tt
  end.

End MainWindow.

(** ** Main window, continued

    The constructor of [MainWindow], the slots of its other buttons, and
    what the user can do to its widgets. *)

Module Shell.

Import MainWindow.

Definition with_mute_chk (b : bool) (mw : MainWindow) : MainWindow :=
  mkMainWindow (sound mw) b (name_edit mw) (h_spin mw) (m_spin mw)
    (s_spin mw) (repeat_new mw) (list_layout mw) (clear_btn mw) (tray mw)
    (_overlay mw).

(** [__init__()]: what it leaves in the fields.  [HAS_SOUND], [ctor_raises]
    and [path] are the arguments of [SoundPlayer.__init__];
    [tray_available] is the answer of
    [QSystemTrayIcon.isSystemTrayAvailable()].  The check boxes start
    unchecked, the line edit empty, the spin boxes at 0 and the button
    enabled, as the toolkit builds them; [_on_list_changed] runs last.
    The attribute [_overlay] is created by [_notify]. *)
Definition __init__ (HAS_SOUND ctor_raises : bool) (path : string)
    (tray_available : bool) : MainWindow :=
  window
    (_on_list_changed
       {| sound := SoundPlayer.__init__ HAS_SOUND ctor_raises path;
          mute_chk := false;
          name_edit := "";
          h_spin := 0;
          m_spin := 0;
          s_spin := 0;
          repeat_new := false;
          list_layout := [];
          clear_btn := true;
          tray := if tray_available then Some tray_icon else None;
          _overlay := None |}).

(** The ranges [__init__] gives the three spin boxes. *)
Definition h_range : Z * Z := (0, 23).
Definition m_range : Z * Z := (0, 59).
Definition s_range : Z * Z := (0, 59).

(** The list the preset buttons are made from: label and minutes. *)
Definition presets : list (string * Z) :=
  [("5 min", 5); ("10 min", 10); ("15 min", 15);
   ("25 min (Pomodoro)", 25); ("45 min", 45); ("60 min", 60)].

(** The [label] a preset button finds when clicked.  Its lambda binds
    [m=mins] when it is made, and reads [label] when it is called, from the
    frame of [__init__], where the loop has left the label of the last
    preset. *)
Definition preset_label : string :=
  match last presets with
  | Some (label, _) => label
  | None => ""
  end.

(** A click on the preset button at position [k]:
    [self.add_timer(f"{label}", 60*m, repeat=False)]. *)
Definition preset_clicked (k : nat) : UI unit :=
  match presets !! k with
  | Some (_, m) => add_timer preset_label (60 * m) false
  | None => mret tt
  end.

(** [clear_all()]: the loop goes down the positions the layout had at its
    start; every item is a [TimerWidget], and [setParent(None)] takes it
    out of the layout. *)
Definition clear_all : UI unit :=
  modify (fun mw =>
    let count := length (list_layout mw) in
    with_list_layout
      (foldl (fun l i => delete i l) (list_layout mw) (rev (seq 0 count)))
      mw) ;;
  _on_list_changed.

(** A click on the delete button of the widget at position [i]:
    [_on_delete] stops it, [setParent(None)] takes it out of the layout,
    and the [changed] it emits last reaches [_on_list_changed]. *)
Definition delete_clicked (i : nat) : UI unit :=
  mw ← get;
  match list_layout mw !! i with
  | Some w =>
      let '(_, sigs) := TimerWidget._on_delete w in
      modify (with_list_layout (delete i (list_layout mw))) ;;
      for_each (fun _ => _on_list_changed) sigs
  | None => mret tt
  end.

(** The user edits the title, or clicks the repeat box, of the widget at
    position [i]. *)
Definition title_typed (tk : Toolkit) (i : nat) (now : Q) (text : string)
  : UI unit :=
  sigs ← on_widget i (TimerWidget.title_typed text);
  for_each (deliver tk i now) sigs.

Definition repeat_clicked (tk : Toolkit) (i : nat) (now : Q)
    (checked : bool) : UI unit :=
  sigs ← on_widget i (TimerWidget.repeat_clicked checked);
  for_each (deliver tk i now) sigs.

(** A spin box keeps the value it is given inside its range. *)
Definition bound (range : Z * Z) (v : Z) : Z :=
  Z.max (fst range) (Z.min (snd range) v).

(** The user fills the add-timer form. *)
Definition form_typed (name : string) (h m s : Z) (repeat : bool)
  : UI unit :=
  modify (with_form name (bound h_range h) (bound m_range m)
            (bound s_range s) repeat).

(** The user clicks the mute box. *)
Definition mute_clicked (checked : bool) : UI unit :=
  modify (with_mute_chk checked).

(** A click on the button at position [k] of the overlay, which takes
    clicks while it is on screen. *)
Definition overlay_button (k : nat) : UI unit :=
  mw ← get;
  match _overlay mw with
  | Some ov =>
      if visible ov
      then match AlarmOverlay.buttons !! k with
           | Some (_, a) => overlay_clicked a
           | None => mret tt
           end
      else mret tt
  | None => mret tt
  end.

End Shell.

(** ** The event loop *)

(** What can happen to the window once it is shown: the clicks and edits
    of the user and the time-outs of the timers.  The clock readings are
    those of the [time.time()] calls the event runs into.  A widget taken
    out of the layout is on its way to deletion ([deleteLater]), its
    [QTimer] with it: time-outs reach the timers of the layout only. *)
Inductive Event : Type :=
| ev_add
| ev_preset (k : nat)
| ev_clear
| ev_form (name : string) (h m s : Z) (repeat : bool)
| ev_mute (checked : bool)
| ev_title (i : nat) (text : string)
| ev_repeat (i : nat) (checked : bool)
| ev_start (i : nat) (now : Q)
| ev_reset (i : nat)
| ev_delete (i : nat)
| ev_timeout (i : nat) (now now' : Q)
| ev_overlay (k : nat).

(** The slot each event is connected to.  The slots of [changed] read no
    clock; the reading passed along for them is never used. *)
Definition handle (tk : Toolkit) (e : Event) : UI unit :=
  match e with
  | ev_add => MainWindow.add_timer_from_inputs
  | ev_preset k => Shell.preset_clicked k
  | ev_clear => Shell.clear_all
  | ev_form name h m s repeat => Shell.form_typed name h m s repeat
  | ev_mute checked => Shell.mute_clicked checked
  | ev_title i text => Shell.title_typed tk i 0 text
  | ev_repeat i checked => Shell.repeat_clicked tk i 0 checked
  | ev_start i now => MainWindow.start_clicked i now
  | ev_reset i => MainWindow.reset_clicked tk i 0
  | ev_delete i => Shell.delete_clicked i
  | ev_timeout i now now' => MainWindow.tick_timeout tk i now now'
  | ev_overlay k => Shell.overlay_button k
  end.

(** The window after a list of events, each with the behaviour of the
    toolkit while it is handled. *)
Fixpoint run (events : list (Toolkit * Event)) (mw : MainWindow)
  : MainWindow :=
  match events with
  | [] => mw
  | (tk, e) :: events' => run events' (window (handle tk e mw))
  end.

(** The toolkit calls made along the way, in order. *)
Fixpoint run_calls (events : list (Toolkit * Event)) (mw : MainWindow)
  : list Entry :=
  match events with
  | [] => []
  | (tk, e) :: events' =>
      calls (handle tk e mw) ++ run_calls events' (window (handle tk e mw))
  end.

(** * Vocabulary of the statements *)

(** The decimal digit character of [n], for [0 <= n <= 9]. *)
Definition digit (n : Z) : ascii := ascii_of_nat (48 + Z.to_nat n).

(** A number below one hundred written with exactly two digits. *)
Definition two_digits (n : Z) : string :=
  String (digit (n / 10)) (String (digit (n mod 10)) EmptyString).

(** The time a tick subtracts: the clock reading minus the reading kept
    in [_last], or nothing when there is none. *)
Definition elapsed (now : Q) (w : TimerWidget) : Q :=
  now - match _last w with Some l => l | None => now end.

(** A tick at [now] brings the counter to zero or below. *)
Definition expires (now : Q) (w : TimerWidget) : Prop :=
  (remaining w - elapsed now w <= 0)%Q.

(** The invariant of a timer: the total duration is at least one second
    and the remaining time does not exceed it. *)
Definition timer_inv (w : TimerWidget) : Prop :=
  1 <= total w /\ (remaining w <= inject_Z (total w))%Q.

(** The clock reading [now] is not before the one kept in [_last]. *)
Definition clock_not_set_back (now : Q) (w : TimerWidget) : Prop :=
  match _last w with
  | Some l => (l <= now)%Q
  | None => True
  end.

(** The overlay [_notify] leaves on screen. *)
Definition shown_overlay (title : string) : AlarmOverlay :=
  AlarmOverlay.show_full (AlarmOverlay.__init__ title).

(** The balloon [_notify] asks the tray for. *)
Definition balloon (tk : Toolkit) (title : string) : Entry :=
  mkEntry (tray_showMessage "SmartTimers"
             (Py.str_or title "Timer" ++ " is done.")%string 5000)
          (showMessage_raises tk).

(** The toolkit calls of [_notify], in order. *)
Definition notify_log (tk : Toolkit) (title : string) (mw : MainWindow)
  : list Entry :=
  (if mute_chk mw then [] else SoundPlayer.play tk (sound mw))
  ++ match tray mw with Some _ => [balloon tk title] | None => [] end.

(** The title [_on_timer_finished] announces. *)
Definition announced (w : TimerWidget) : string :=
  Py.str_or (Py.strip (title_edit w)) "Timer".

(** The widget a repeating timer becomes once restarted at [now]. *)
Definition restarted (now : Q) (w : TimerWidget) : TimerWidget :=
  TimerWidget.start now (fst (TimerWidget.set_seconds (total w) w)).

(** The label [_on_snooze] gives the new timer. *)
Definition snooze_label (minutes : Z) : string :=
  ("Snooze (" ++ Py.str_int minutes ++ " min)")%string.

(** The duration the add-timer form asks for. *)
Definition form_total (mw : MainWindow) : Z :=
  h_spin mw * 3600 + m_spin mw * 60 + s_spin mw.

(** ** Sample states *)

(** A toolkit in which nothing raises. *)
Definition calm : Toolkit := mkToolkit false false false.

(** A sound player whose sound effect was built. *)
Definition studio : SoundPlayer :=
  SoundPlayer.__init__ true false "/tmp/smart_timers_beep.wav".

(** A repeating two second timer, started at clock reading 10. *)
Definition tea : TimerWidget :=
  TimerWidget.start 10 (TimerWidget.__init__ "Tea" 2 true).

(** A one-shot two second timer, started at clock reading 10. *)
Definition egg : TimerWidget :=
  TimerWidget.start 10 (TimerWidget.__init__ "Egg" 2 false).

(** A window holding [tea] and [egg], with the given mute box and tray. *)
Definition desk (mute : bool) (tray : option QSystemTrayIcon) : MainWindow :=
  mkMainWindow studio mute "" 0 0 0 false [tea; egg] true tray None.

(** The same window with an alarm on screen. *)
Definition ringing : MainWindow :=
  MainWindow.with_overlay (Some (shown_overlay "Tea"))
    (desk false (Some tray_icon)).

(** A window whose form asks for 30 seconds under a name of three
    spaces. *)
Definition blank_form : MainWindow :=
  mkMainWindow studio false "   " 0 0 30 false [] false None None.

(** A window whose form asks for a repeating timer of 1 h 2 min 5 s. *)
Definition filled_form : MainWindow :=
  mkMainWindow studio false "  Tea time " 1 2 5 true [] false None None.

(** ** Invariants of a session *)

(** The layout holds a timer: what [_on_list_changed] computes. *)
Definition has_items (l : list TimerWidget) : bool :=
  existsb (fun _ => true) l.

(** The bounds of a timer: a total between one second and the longest
    duration the form can ask for, and a remaining time that is not
    negative. *)
Definition bounds_ok (w : TimerWidget) : Prop :=
  1 <= total w <= 86399 /\ (0 <= remaining w)%Q.

(** The run state of a timer: the [running] flag and the widget's [QTimer]
    agree, a started [QTimer] has a clock reading in [_last], and the
    button shows pause while running and play while stopped. *)
Definition state_ok (w : TimerWidget) : Prop :=
  running w = _tick w
  /\ (_tick w = true -> _last w <> None)
  /\ btn_start w = (if running w then icon_pause else icon_play).

(** What the latest calls on the label and on the progress bar were
    given: [humanize] of [int(remaining)] for [setText], 0 and the total
    for [setRange], the total minus [int(remaining)] for [setValue]. *)
Definition display_ok (w : TimerWidget) : Prop :=
  time_lbl w = humanize (Py.int (remaining w))
  /\ progress_range w = (0, total w)
  /\ progress_value w = total w - Py.int (remaining w).

Definition widget_ok (w : TimerWidget) : Prop :=
  bounds_ok w /\ state_ok w /\ display_ok w.

(** The form holds values of its spin boxes' ranges. *)
Definition form_ok (mw : MainWindow) : Prop :=
  0 <= h_spin mw <= 23 /\ 0 <= m_spin mw <= 59 /\ 0 <= s_spin mw <= 59.

Definition window_ok (mw : MainWindow) : Prop :=
  Forall widget_ok (list_layout mw)
  /\ clear_btn mw = has_items (list_layout mw)
  /\ form_ok mw.

(** The window after start-up and a list of events. *)
Definition session (HAS_SOUND ctor_raises : bool) (path : string)
    (tray_available : bool) (events : list (Toolkit * Event)) : MainWindow :=
  run events (Shell.__init__ HAS_SOUND ctor_raises path tray_available).

(** The widget after a list of ticks, given by their clock readings. *)
Fixpoint ticks (nows : list Q) (w : TimerWidget) : TimerWidget :=
  match nows with
  | [] => w
  | now :: nows' => ticks nows' (fst (TimerWidget._on_tick now w))
  end.

(** The signals those ticks emit, in order. *)
Fixpoint ticks_signals (nows : list Q) (w : TimerWidget) : list Signal :=
  match nows with
  | [] => []
  | now :: nows' =>
      snd (TimerWidget._on_tick now w)
      ++ ticks_signals nows' (fst (TimerWidget._on_tick now w))
  end.

(** Two windows that differ at most in the layout, the state of the clear
    button and the overlay. *)
Definition same_controls (mw mw' : MainWindow) : Prop :=
  sound mw' = sound mw /\ mute_chk mw' = mute_chk mw
  /\ tray mw' = tray mw /\ name_edit mw' = name_edit mw
  /\ h_spin mw' = h_spin mw /\ m_spin mw' = m_spin mw
  /\ s_spin mw' = s_spin mw /\ repeat_new mw' = repeat_new mw.

(** The clear button is as it was or as [_on_list_changed] sets it. *)
Definition clear_btn_kept (mw mw' : MainWindow) : Prop :=
  clear_btn mw' = clear_btn mw
  \/ clear_btn mw' = has_items (list_layout mw').

(** The widget a time-out leaves at its position: untouched when its
    [QTimer] is stopped, ticked otherwise, and restarted as well when the
    tick ends a repeating timer. *)
Definition after_timeout (now now' : Q) (w : TimerWidget) : TimerWidget :=
  if _tick w
  then
    let w1 := fst (TimerWidget._on_tick now w) in
    match snd (TimerWidget._on_tick now w) with
    | [] => w1
    | _ => if repeat_chk w then restarted now' w1 else w1
    end
  else w.

(** A string of white space only. *)
Fixpoint all_space (s : string) : Prop :=
  match s with
  | EmptyString => True
  | String c s' => Py.isspace c = true /\ all_space s'
  end.

(** A string that is empty or ends with something else than white space. *)
Fixpoint ends_clean (s : string) : Prop :=
  match s with
  | EmptyString => True
  | String c EmptyString => Py.isspace c = false
  | String _ s' => ends_clean s'
  end.

(** A string that is empty or starts with something else than white
    space. *)
Definition starts_clean (s : string) : Prop :=
  match s with
  | EmptyString => True
  | String c _ => Py.isspace c = false
  end.

(** [t] is [name] without its surrounding white space: [name] is [t]
    between two strings of white space, and [t] neither starts nor ends
    with white space. *)
Definition trimmed_of (name t : string) : Prop :=
  exists pre post,
    name = (pre ++ t ++ post)%string
    /\ all_space pre /\ all_space post
    /\ starts_clean t /\ ends_clean t.

(** The label of a timer shows the whole seconds of its remaining time. *)
Definition label_ok (w : TimerWidget) : Prop :=
  time_lbl w = humanize (Qfloor (remaining w)).

(** A slot that rings nothing: no audible cue, no balloon, and an overlay
    that is the one before or is hidden. *)
Definition silent (mw : MainWindow) (r : unit * MainWindow * list Entry)
  : Prop :=
  existsb audible (calls r) = false
  /\ existsb is_balloon (calls r) = false
  /\ (_overlay (window r) = _overlay mw
      \/ exists ov, _overlay (window r) = Some ov /\ visible ov = false).

(** A slot that rings: an audible cue, a balloon, or an overlay on screen
    that was not there before. *)
Definition rings (mw : MainWindow) (r : unit * MainWindow * list Entry)
  : Prop :=
  existsb audible (calls r) = true
  \/ existsb is_balloon (calls r) = true
  \/ exists ov, _overlay (window r) = Some ov /\ visible ov = true
                /\ _overlay mw <> Some ov.

(** * Properties *)

Example humanize_75 : humanize 75 = "01:15".
Proof. reflexivity. Qed.

Example humanize_3725 : humanize 3725 = "01:02:05".
Proof. reflexivity. Qed.

Example humanize_neg : humanize (-4) = "00:00".
Proof. reflexivity. Qed.

Example strip_tea : Py.strip "  Tea time " = "Tea time".
Proof. reflexivity. Qed.

(** ** Formatting *)

Lemma fmt_02d_two_digits (n : Z) :
  0 <= n < 100 -> Py.fmt_02d n = two_digits n.
Proof.
  intros Hn.
  assert (Hall : forallb
            (fun k => String.eqb (Py.fmt_02d (Z.of_nat k))
                                 (two_digits (Z.of_nat k)))
            (seq 0 100) = true) by (vm_compute; reflexivity).
  rewrite forallb_forall in Hall.
  specialize (Hall (Z.to_nat n)).
  rewrite Z2Nat.id in Hall by lia.
  apply String.eqb_eq, Hall, in_seq. lia.
Qed.

Lemma short_decimal (d : Decimal.uint) :
  (String.length (NilZero.string_of_uint d) < 2)%nat -> (N.of_uint d < 10)%N.
Proof.
  destruct d as [| d | d | d | d | d | d | d | d | d | d];
    try (intros _; vm_compute; reflexivity);
    destruct d; cbn; intros H; try lia; vm_compute; reflexivity.
Qed.

(** From ten on the format [02d] pads nothing: it is [str]. *)
Lemma fmt_02d_wide (n : Z) : 10 <= n -> Py.fmt_02d n = Py.str_int n.
Proof.
  intros Hn. unfold Py.fmt_02d, Py.str_int.
  destruct (Z.ltb_spec n 0) as [Hneg | _]; [lia |].
  destruct n as [| p | p]; try lia.
  cbn [Z.to_N Z.to_int NilZero.string_of_int].
  unfold Py.zfill.
  assert (Hlen : (2 <= String.length
                        (NilZero.string_of_uint (N.to_uint (N.pos p))))%nat).
  { destruct (Nat.lt_ge_cases
                (String.length
                   (NilZero.string_of_uint (N.to_uint (N.pos p)))) 2)
      as [Hshort | Hok]; [| exact Hok].
    apply short_decimal in Hshort.
    rewrite DecimalN.Unsigned.of_to in Hshort. lia. }
  replace (2 - _)%nat with 0%nat by lia. reflexivity.
Qed.

Lemma humanize_clamped (seconds : Z) :
  0 <= seconds ->
  humanize seconds =
    if negb (seconds / 3600 =? 0)
    then (Py.fmt_02d (seconds / 3600) ++ ":"
          ++ Py.fmt_02d ((seconds mod 3600) / 60) ++ ":"
          ++ Py.fmt_02d (seconds mod 60))%string
    else (Py.fmt_02d ((seconds mod 3600) / 60) ++ ":"
          ++ Py.fmt_02d (seconds mod 60))%string.
Proof.
  intros Hs. unfold humanize.
  destruct (Z.ltb_spec seconds 0) as [Hneg | _]; [lia | reflexivity].
Qed.

(** C10.  For [0 <= seconds < 3600], [humanize] returns the five
    characters MM:SS, the two digits of [seconds div 60] and the two
    digits of [seconds mod 60]; for [seconds >= 3600] it returns HH:MM:SS
    where HH is [seconds div 3600] in the format [02d] (its two digits
    while the hours stay below one hundred, its decimal digits from there
    on), MM the two digits of the minutes left and SS the two digits of
    [seconds mod 60]; for a negative argument it returns 00:00. *)
Theorem humanize_format (seconds : Z) :
  (0 <= seconds < 3600 ->
   humanize seconds =
     (two_digits (seconds / 60) ++ ":" ++ two_digits (seconds mod 60))%string)
  /\ (3600 <= seconds ->
      humanize seconds =
        (Py.fmt_02d (seconds / 3600) ++ ":"
         ++ two_digits ((seconds mod 3600) / 60) ++ ":"
         ++ two_digits (seconds mod 60))%string
      /\ (seconds < 360000 ->
          Py.fmt_02d (seconds / 3600) = two_digits (seconds / 3600))
      /\ (360000 <= seconds ->
          Py.fmt_02d (seconds / 3600) = Py.str_int (seconds / 3600)))
  /\ (seconds < 0 -> humanize seconds = "00:00").
Proof.
  split; [| split].
  - intros [Hlo Hhi].
    rewrite humanize_clamped by lia.
    assert (Hh : seconds / 3600 = 0) by (apply Z.div_small; lia).
    rewrite Hh. cbn [Z.eqb negb].
    rewrite Z.mod_small by lia.
    rewrite !fmt_02d_two_digits; [reflexivity | |].
    + pose proof (Z.mod_pos_bound seconds 60). lia.
    + split; [apply Z.div_pos; lia | apply Z.div_lt_upper_bound; lia].
  - intros Hge. split; [| split].
    + rewrite humanize_clamped by lia.
      assert (Hh : 1 <= seconds / 3600)
        by (apply Z.div_le_lower_bound; lia).
      destruct (Z.eqb_spec (seconds / 3600) 0) as [H0 | _]; [lia |].
      cbn [negb].
      pose proof (Z.mod_pos_bound seconds 3600).
      pose proof (Z.mod_pos_bound seconds 60).
      rewrite (fmt_02d_two_digits ((seconds mod 3600) / 60)).
      * rewrite (fmt_02d_two_digits (seconds mod 60)) by lia. reflexivity.
      * split; [apply Z.div_pos; lia | apply Z.div_lt_upper_bound; lia].
    + intros Hlt. apply fmt_02d_two_digits.
      split; [apply Z.div_pos; lia | apply Z.div_lt_upper_bound; lia].
    + intros Hbig. apply fmt_02d_wide.
      transitivity 100; [lia | apply Z.div_le_lower_bound; lia].
  - intros Hneg. unfold humanize.
    destruct (Z.ltb_spec seconds 0) as [_ | Hge]; [reflexivity | lia].
Qed.

(** The cases at 75 seconds, at 3725 seconds, at one hundred hours and at
    -4 seconds. *)
Lemma humanize_format_witness :
  humanize 75 = "01:15" /\ humanize 3725 = "01:02:05"
  /\ humanize 360000 = "100:00:00" /\ humanize (-4) = "00:00".
Proof.
  destruct (humanize_format 75) as (Hmm & _ & _).
  destruct (humanize_format 3725) as (_ & Hhh & _).
  destruct (humanize_format 360000) as (_ & Hwide & _).
  destruct (humanize_format (-4)) as (_ & _ & Hneg).
  split; [| split; [| split]].
  - rewrite Hmm by lia. reflexivity.
  - destruct Hhh as [Heq _]; [lia |]. rewrite Heq. reflexivity.
  - destruct Hwide as [Heq _]; [lia |]. rewrite Heq. reflexivity.
  - apply Hneg. lia.
Defined.

(** ** Text *)

Section TextFacts.

Implicit Types (s : string) (c : ascii).

Lemma lstrip_clean s : starts_clean (Py.lstrip s).
Proof.
  induction s as [| c s IH]; cbn; [exact I |].
  destruct (Py.isspace c) eqn:Hc; [exact IH | exact Hc].
Qed.

Lemma lstrip_id s : starts_clean s -> Py.lstrip s = s.
Proof. destruct s as [| c s]; cbn; [reflexivity | intros ->; reflexivity]. Qed.

Lemma rstrip_clean s : starts_clean s -> starts_clean (Py.rstrip s).
Proof.
  destruct s as [| c s]; cbn; [auto |]. intros Hc.
  destruct (Py.rstrip s); [rewrite Hc |]; exact Hc.
Qed.

Lemma rstrip_twice s : Py.rstrip (Py.rstrip s) = Py.rstrip s.
Proof.
  induction s as [| c s IH]; [reflexivity |]. cbn.
  destruct (Py.rstrip s) as [| d r] eqn:Hr.
  - destruct (Py.isspace c) eqn:Hc; [reflexivity |]. cbn. rewrite Hc.
    reflexivity.
  - cbn [Py.rstrip]. cbn [Py.rstrip] in IH. rewrite IH. reflexivity.
Qed.

Lemma strip_twice s : Py.strip (Py.strip s) = Py.strip s.
Proof.
  unfold Py.strip.
  rewrite (lstrip_id (Py.rstrip (Py.lstrip s)))
    by apply rstrip_clean, lstrip_clean.
  apply rstrip_twice.
Qed.

Lemma announced_clean (w : TimerWidget) :
  announced w <> "" /\ Py.strip (announced w) = announced w.
Proof.
  unfold announced.
  destruct (Py.strip (title_edit w)) as [| c s] eqn:Hs; cbn [Py.str_or].
  - split; [discriminate | reflexivity].
  - split; [discriminate |]. rewrite <- Hs. apply strip_twice.
Qed.

Lemma all_space_app s t :
  all_space s -> all_space t -> all_space (s ++ t)%string.
Proof.
  induction s as [| c s IH]; cbn; [auto |].
  intros [Hc Hs] Ht. split; [exact Hc | apply IH; assumption].
Qed.

(** [lstrip] cuts a prefix of white space. *)
Lemma lstrip_split s :
  exists pre, s = (pre ++ Py.lstrip s)%string /\ all_space pre.
Proof.
  induction s as [| c s (pre & Heq & Hpre)]; [exists ""; split; exact I || reflexivity |].
  cbn. destruct (Py.isspace c) eqn:Hc.
  - exists (String c pre). cbn. rewrite <- Heq. auto.
  - exists "". split; [reflexivity | exact I].
Qed.

(** [rstrip] cuts a suffix of white space, and what it leaves does not
    end in white space. *)
Lemma rstrip_split s :
  exists post,
    s = (Py.rstrip s ++ post)%string /\ all_space post
    /\ ends_clean (Py.rstrip s).
Proof.
  induction s as [| c s (post & Heq & Hpost & Hend)].
  - exists "". repeat split.
  - cbn [Py.rstrip]. destruct (Py.rstrip s) as [| d r] eqn:Hr.
    + cbn in Heq. destruct (Py.isspace c) eqn:Hc.
      * exists (String c s). cbn. repeat split; [exact Hc |].
        rewrite Heq. exact Hpost.
      * exists s. cbn. repeat split; [rewrite Heq; exact Hpost | exact Hc].
    + exists post.
      split; [| split; [exact Hpost | exact Hend]].
      change (String c s = String c (String d r ++ post)%string).
      f_equal. exact Heq.
Qed.

Lemma rstrip_id s : ends_clean s -> Py.rstrip s = s.
Proof.
  induction s as [| c s IH]; [reflexivity |].
  destruct s as [| d s'].
  - cbn. intros ->. reflexivity.
  - intros Hend. cbn [Py.rstrip]. cbn [Py.rstrip] in IH.
    rewrite IH by exact Hend. reflexivity.
Qed.

(** [strip] leaves a string with no surrounding white space as it is. *)
Lemma strip_id s : starts_clean s -> ends_clean s -> Py.strip s = s.
Proof.
  intros Hstart Hend. unfold Py.strip.
  rewrite (lstrip_id s Hstart). apply rstrip_id, Hend.
Qed.

(** [strip] returns the string without its surrounding white space. *)
Lemma strip_trimmed s : trimmed_of s (Py.strip s).
Proof.
  unfold trimmed_of, Py.strip.
  destruct (lstrip_split s) as (pre & Hpre & Hsp).
  destruct (rstrip_split (Py.lstrip s)) as (post & Hpost & Hsq & Hend).
  exists pre, post. rewrite <- Hpost, <- Hpre.
  repeat split; try assumption.
  apply rstrip_clean, lstrip_clean.
Qed.

End TextFacts.

(** ** The timer widget *)

Section TimerWidgetFacts.

Import TimerWidget.

Implicit Types (w : TimerWidget) (now l : Q).

(** C4.  [toggle] negates [running]: it starts the tick callback when the
    timer was not running and stops it when it was, so a second [toggle]
    brings [running] (and the callback) back to where it was. *)
Theorem toggle_two_state w now :
  running (toggle now w) = negb (running w)
  /\ _tick (toggle now w) = negb (running w)
  /\ forall now', running (toggle now' (toggle now w)) = running w
                  /\ _tick (toggle now' (toggle now w)) = running w.
Proof.
  unfold toggle. destruct (running w) eqn:Hrun; cbn; auto.
Qed.

Lemma set_seconds_fields seconds w :
  let w' := fst (set_seconds seconds w) in
  remaining w' = inject_Z seconds /\ total w' = Py.max 1 seconds
  /\ running w' = running w /\ _tick w' = _tick w
  /\ title_edit w' = title_edit w /\ repeat_chk w' = repeat_chk w
  /\ _last w' = _last w.
Proof. cbn. repeat split. Qed.

(** The total of a widget is at least 1 from its construction on: the two
    places that assign it take the maximum with 1, and no other method
    writes it. *)
Lemma total_positive :
  (forall title seconds repeat, 1 <= total (__init__ title seconds repeat))
  /\ (forall seconds w, 1 <= total (fst (set_seconds seconds w)))
  /\ (forall now w, total (start now w) = total w)
  /\ (forall w, total (pause w) = total w)
  /\ (forall now w, total (toggle now w) = total w)
  /\ (forall w, total (fst (_on_delete w)) = total w)
  /\ (forall now w, total (fst (_on_tick now w)) = total w).
Proof.
  repeat split; intros; cbn; unfold Py.max; try lia.
  - unfold toggle. destruct (running _); reflexivity.
  - unfold _on_tick. destruct (Qle_bool _ 0); reflexivity.
Qed.

(** C5.  [reset] sets the remaining time to the total duration and leaves
    the timer not running, its tick callback stopped; the total duration,
    the title text and the repeat flag are as before.  The hypothesis
    holds of every widget: see [total_positive]. *)
Theorem reset_frame w :
  1 <= total w ->
  let w' := fst (reset w) in
  remaining w' = inject_Z (total w)
  /\ running w' = false /\ _tick w' = false
  /\ total w' = total w
  /\ title_edit w' = title_edit w
  /\ repeat_chk w' = repeat_chk w.
Proof.
  intros Htotal. cbn. unfold Py.max.
  repeat split. apply Z.max_r, Htotal.
Qed.

(** A repeating 90 second timer, started and ticked once, then reset. *)
Lemma reset_frame_witness :
  let w := fst (_on_tick 3 (start 1 (__init__ "Tea" 90 true))) in
  let w' := fst (reset w) in
  remaining w' = 90%Q /\ running w' = false /\ _tick w' = false
  /\ total w' = 90 /\ title_edit w' = "Tea" /\ repeat_chk w' = true.
Proof.
  apply (reset_frame (fst (_on_tick 3 (start 1 (__init__ "Tea" 90 true))))).
  vm_compute. discriminate.
Defined.

Lemma _on_tick_expired now w :
  expires now w ->
  _on_tick now w =
    (pause (with_time_lbl (humanize 0)
              (with_progress_value (total w)
                 (with_remaining 0 (with_last (Some now) w)))),
     [finished]).
Proof.
  unfold expires, elapsed, _on_tick. intros Hexp. cbn.
  apply Qle_bool_iff in Hexp. rewrite Hexp. reflexivity.
Qed.

Lemma _on_tick_running now w :
  (0 < remaining w - elapsed now w)%Q ->
  let r := (remaining w - elapsed now w)%Q in
  _on_tick now w =
    (with_progress_value (total w - Py.int r)
       (with_time_lbl (humanize (Py.int r))
          (with_remaining r (with_last (Some now) w))),
     []).
Proof.
  unfold elapsed, _on_tick. intros Hpos. cbn.
  destruct (Qle_bool _ 0) eqn:Hle; [| reflexivity].
  apply Qle_bool_iff in Hle. lra.
Qed.

Lemma start_fields now w :
  running (start now w) = true /\ _tick (start now w) = true
  /\ _last (start now w) = Some now
  /\ remaining (start now w) = remaining w
  /\ total (start now w) = total w.
Proof. cbn. repeat split. Qed.

(** C6, as the code has it.  [start] and every tick store their clock
    reading in [_last].  A tick at [now] of a running timer whose [_last]
    is [l] takes exactly [now - l] off the counter: the time since the
    previous tick or, for the first tick after a start, since that
    start.  When the result is zero or below, the counter is set to
    exactly zero, the timer pauses and [finished] is emitted; otherwise
    the timer keeps running. *)
Theorem tick_decrement w now l :
  running w = true ->
  _last w = Some l ->
  let r := (remaining w - (now - l))%Q in
  let w' := fst (_on_tick now w) in
  (forall now0 w0, _last (start now0 w0) = Some now0)
  /\ _last w' = Some now
  /\ ((r <= 0)%Q ->
      remaining w' = 0%Q /\ running w' = false /\ _tick w' = false
      /\ snd (_on_tick now w) = [finished])
  /\ ((0 < r)%Q ->
      remaining w' = r /\ running w' = true
      /\ snd (_on_tick now w) = []).
Proof.
  intros Hrun Hlast r w'. subst r w'.
  split; [reflexivity |].
  assert (Hel : elapsed now w = (now - l)%Q)
    by (unfold elapsed; rewrite Hlast; reflexivity).
  split; [| split].
  - unfold _on_tick. destruct (Qle_bool _ 0); reflexivity.
  - intros Hle. rewrite _on_tick_expired; [cbn; auto |].
    unfold expires. rewrite Hel. exact Hle.
  - intros Hpos. rewrite _on_tick_running by (rewrite Hel; exact Hpos).
    cbn. rewrite Hel. auto.
Qed.

(** A two second timer started at clock reading 10: a tick a quarter of a
    second later takes that quarter off, and a tick at 13 ends it. *)
Lemma tick_decrement_witness :
  let w := start 10 (__init__ "Tea" 2 false) in
  remaining (fst (_on_tick (41 # 4) w)) = (2 - ((41 # 4) - 10))%Q
  /\ remaining (fst (_on_tick 13 w)) = 0%Q
  /\ running (fst (_on_tick 13 w)) = false.
Proof.
  pose (w := start 10 (__init__ "Tea" 2 false)).
  destruct (tick_decrement w (41 # 4) 10 eq_refl eq_refl)
    as (_ & _ & _ & Hpos).
  destruct (tick_decrement w 13 10 eq_refl eq_refl)
    as (_ & _ & Hzero & _).
  split; [apply Hpos; vm_compute; reflexivity |].
  destruct Hzero as (Hz & Hr & _); [vm_compute; discriminate |].
  split; assumption.
Defined.

(** C6, as the spec words it, fails on the first tick after a pause.  A
    100 second timer is started at clock reading 0, ticks at 1, is
    paused, is started again at 50 and ticks at 51.  The time since the
    previous tick is 50 seconds and taking it off would leave 49, yet
    the tick takes one second off: the time since the second start. *)
Lemma tick_after_resume_counterexample :
  let w1 := fst (_on_tick 1 (start 0 (__init__ "Tea" 100 false))) in
  let w2 := start 50 (pause w1) in
  let w3 := fst (_on_tick 51 w2) in
  _last w1 = Some 1%Q /\ running w2 = true
  /\ (0 < remaining w2 - (51 - 1))%Q
  /\ ~ (remaining w3 == remaining w2 - (51 - 1))%Q
  /\ (remaining w3 == remaining w2 - (51 - 50))%Q.
Proof.
  cbv zeta. repeat split; try (vm_compute; congruence).
Qed.

End TimerWidgetFacts.

(** ** The shell *)

Section MainWindowFacts.

Import MainWindow.

Implicit Types (mw : MainWindow) (w : TimerWidget) (tk : Toolkit)
  (i : nat) (now : Q) (title : string).

(** Unfolds the plumbing of [UI] in the goal. *)
Ltac run_ui :=
  repeat progress
    (unfold mbind, mret, UI_bind, UI_ret, get, modify, tell, window, calls,
       _on_list_changed;
     cbn -[on_widget _notify _on_timer_finished]).

Lemma _notify_run tk title mw :
  _notify tk title mw =
    (tt, with_overlay (Some (shown_overlay title)) mw,
     notify_log tk title mw).
Proof.
  unfold _notify, notify_log. run_ui.
  destruct (mute_chk mw), (tray mw); cbn;
    rewrite ?app_nil_r; reflexivity.
Qed.

Lemma on_widget_run i f mw w :
  list_layout mw !! i = Some w ->
  on_widget i f mw =
    (snd (f w),
     with_list_layout (<[i := fst (f w)]> (list_layout mw)) mw, []).
Proof.
  intros Hw. unfold on_widget. rewrite Hw. destruct (f w); reflexivity.
Qed.

Lemma _on_timer_finished_once tk i now mw w :
  list_layout mw !! i = Some w ->
  repeat_chk w = false ->
  _on_timer_finished tk i now mw =
    (tt, with_overlay (Some (shown_overlay (announced w))) mw,
     notify_log tk (announced w) mw).
Proof.
  intros Hw Hrep. unfold _on_timer_finished. run_ui.
  rewrite Hw, Hrep. fold (announced w).
  rewrite _notify_run. cbn. rewrite app_nil_r. reflexivity.
Qed.

Lemma _on_timer_finished_repeat tk i now mw w :
  list_layout mw !! i = Some w ->
  repeat_chk w = true ->
  let r := _on_timer_finished tk i now mw in
  list_layout (window r) = <[i := restarted now w]> (list_layout mw)
  /\ _overlay (window r) = Some (shown_overlay (announced w))
  /\ calls r = notify_log tk (announced w) mw
  /\ mute_chk (window r) = mute_chk mw
  /\ tray (window r) = tray mw
  /\ sound (window r) = sound mw.
Proof.
  intros Hw Hrep. cbv zeta.
  assert (Hi : (i < length (list_layout mw))%nat)
    by (eapply lookup_lt_Some; exact Hw).
  unfold _on_timer_finished. run_ui.
  rewrite Hw, Hrep. fold (announced w).
  rewrite _notify_run.
  rewrite (on_widget_run i _ _ w) by exact Hw.
  run_ui.
  erewrite on_widget_run
    by (cbn; apply list_lookup_insert_eq; exact Hi).
  cbn. rewrite list_insert_insert_eq, !app_nil_r.
  repeat split.
Qed.

(** Both branches of [_on_timer_finished] notify in the same way and
    leave the other widgets, the mute box, the tray and the sound player
    alone. *)
Lemma _on_timer_finished_run tk i now mw w :
  list_layout mw !! i = Some w ->
  let r := _on_timer_finished tk i now mw in
  list_layout (window r) =
    <[i := if repeat_chk w then restarted now w else w]> (list_layout mw)
  /\ _overlay (window r) = Some (shown_overlay (announced w))
  /\ calls r = notify_log tk (announced w) mw.
Proof.
  intros Hw. cbv zeta. destruct (repeat_chk w) eqn:Hrep.
  - destruct (_on_timer_finished_repeat tk i now mw w Hw Hrep)
      as (Hl & Ho & Hc & _).
    auto.
  - rewrite (_on_timer_finished_once tk i now mw w Hw Hrep).
    unfold window, calls. cbn.
    rewrite list_insert_id by exact Hw. auto.
Qed.

Lemma tick_timeout_expired tk i now now' mw w :
  list_layout mw !! i = Some w ->
  _tick w = true ->
  expires now w ->
  let mw1 :=
    with_list_layout
      (<[i := fst (TimerWidget._on_tick now w)]> (list_layout mw)) mw in
  tick_timeout tk i now now' mw =
    (tt, window (_on_timer_finished tk i now' mw1),
     calls (_on_timer_finished tk i now' mw1)).
Proof.
  intros Hw Htick Hexp. cbv zeta. unfold tick_timeout. run_ui.
  rewrite Hw, Htick. run_ui.
  rewrite (on_widget_run i _ mw w Hw).
  rewrite (_on_tick_expired now w Hexp). cbn [fst snd for_each deliver].
  run_ui.
  destruct (_on_timer_finished tk i now' _) as [[[] mw2] log2].
  cbn. rewrite app_nil_r. reflexivity.
Qed.

Lemma tick_timeout_running tk i now now' mw w :
  list_layout mw !! i = Some w ->
  _tick w = true ->
  (0 < remaining w - elapsed now w)%Q ->
  tick_timeout tk i now now' mw =
    (tt,
     with_list_layout
       (<[i := fst (TimerWidget._on_tick now w)]> (list_layout mw)) mw,
     []).
Proof.
  intros Hw Htick Hpos. unfold tick_timeout. run_ui.
  rewrite Hw, Htick. run_ui.
  rewrite (on_widget_run i _ mw w Hw).
  rewrite (_on_tick_running now w Hpos). reflexivity.
Qed.

Lemma tick_timeout_stopped tk i now now' mw w :
  list_layout mw !! i = Some w ->
  _tick w = false ->
  tick_timeout tk i now now' mw = (tt, mw, []).
Proof.
  intros Hw Htick. unfold tick_timeout. run_ui.
  rewrite Hw, Htick. reflexivity.
Qed.

(** What a tick that expires does to the window. *)
Lemma tick_timeout_expired_run tk i now now' mw w :
  list_layout mw !! i = Some w ->
  _tick w = true ->
  expires now w ->
  let r := tick_timeout tk i now now' mw in
  let w1 := fst (TimerWidget._on_tick now w) in
  list_layout (window r) =
    <[i := if repeat_chk w then restarted now' w1 else w1]> (list_layout mw)
  /\ _overlay (window r) = Some (shown_overlay (announced w))
  /\ calls r = notify_log tk (announced w) mw.
Proof.
  intros Hw Htick Hexp. cbv zeta.
  assert (Hi : (i < length (list_layout mw))%nat)
    by (eapply lookup_lt_Some; exact Hw).
  rewrite (tick_timeout_expired tk i now now' mw w Hw Htick Hexp).
  set (w1 := fst (TimerWidget._on_tick now w)).
  set (mw1 := with_list_layout (<[i := w1]> (list_layout mw)) mw).
  assert (Hw1 : list_layout mw1 !! i = Some w1)
    by (apply list_lookup_insert_eq; exact Hi).
  destruct (_on_timer_finished_run tk i now' mw1 w1 Hw1) as (Hl & Ho & Hc).
  assert (Hsame : repeat_chk w1 = repeat_chk w /\ announced w1 = announced w).
  { subst w1. rewrite (_on_tick_expired now w Hexp). split; reflexivity. }
  destruct Hsame as [Hrep Hann].
  unfold window, calls in *. cbn [fst snd].
  rewrite Hl, Ho, Hc, Hrep, Hann.
  subst mw1. cbn [list_layout with_list_layout].
  rewrite list_insert_insert_eq. auto.
Qed.

(** *** Sound and tray fall-backs *)

Lemma play_audible tk (sp : SoundPlayer) :
  existsb audible (SoundPlayer.play tk sp) = true.
Proof.
  unfold SoundPlayer.play.
  destruct (effect sp), (stop_raises tk), (play_raises tk); reflexivity.
Qed.

Lemma play_no_balloon tk (sp : SoundPlayer) :
  existsb is_balloon (SoundPlayer.play tk sp) = false.
Proof.
  unfold SoundPlayer.play.
  destruct (effect sp), (stop_raises tk), (play_raises tk); reflexivity.
Qed.

Lemma notify_log_audible tk title mw :
  existsb audible (notify_log tk title mw) = negb (mute_chk mw).
Proof.
  unfold notify_log. rewrite existsb_app.
  destruct (mute_chk mw); cbn [negb].
  - destruct (tray mw); [| reflexivity].
    unfold balloon. destruct (showMessage_raises tk); reflexivity.
  - rewrite play_audible. reflexivity.
Qed.

Lemma notify_log_balloon tk title mw :
  existsb is_balloon (notify_log tk title mw) =
    match tray mw with Some _ => true | None => false end.
Proof.
  unfold notify_log. rewrite existsb_app.
  assert (Hsound : existsb is_balloon
            (if mute_chk mw then [] else SoundPlayer.play tk (sound mw))
          = false)
    by (destruct (mute_chk mw); [reflexivity | apply play_no_balloon]).
  rewrite Hsound. destruct (tray mw); reflexivity.
Qed.

(** C7, as the code has it.  [play] always ends in an audible cue: the
    sound effect when there is one and neither [stop] nor [play] raises,
    the application beep otherwise, so it never fails.  Without a system
    tray [_notify] makes the calls of [play], unless the mute box is
    checked, and no other call; it shows the overlay full screen and asks
    for no balloon. *)
Theorem fallbacks tk (sp : SoundPlayer) mw title :
  existsb audible (SoundPlayer.play tk sp) = true
  /\ (effect sp = None \/ stop_raises tk = true \/ play_raises tk = true ->
      last (SoundPlayer.play tk sp) = Some (ok QApplication_beep))
  /\ (tray mw = None ->
      let r := _notify tk title mw in
      calls r = (if mute_chk mw then []
                 else SoundPlayer.play tk (sound mw))
      /\ existsb audible (calls r) = negb (mute_chk mw)
      /\ existsb is_balloon (calls r) = false
      /\ _overlay (window r) = Some (shown_overlay title)
      /\ visible (shown_overlay title) = true
      /\ fullscreen (shown_overlay title) = true).
Proof.
  split; [apply play_audible | split].
  - unfold SoundPlayer.play. intros [Hnone | [Hstop | Hplay]].
    + rewrite Hnone. reflexivity.
    + rewrite Hstop. destruct (effect sp); reflexivity.
    + rewrite Hplay. destruct (effect sp), (stop_raises tk); reflexivity.
  - intros Htray. cbv zeta. rewrite _notify_run. unfold window, calls.
    cbn [fst snd _overlay with_overlay].
    rewrite notify_log_audible, notify_log_balloon.
    unfold notify_log. rewrite Htray, app_nil_r. repeat split.
Qed.

(** A sound effect whose [play] raises ends in the beep; without a tray
    and with the mute box unchecked [_notify] makes the two calls of a
    working sound effect and nothing else. *)
Lemma fallbacks_witness :
  last (SoundPlayer.play (mkToolkit false true false) studio)
  = Some (ok QApplication_beep)
  /\ calls (_notify calm "Tea" (desk false None))
     = [ok effect_stop; ok effect_play].
Proof.
  destruct (fallbacks (mkToolkit false true false) studio
              (desk false None) "Tea") as (_ & Hbeep & _).
  destruct (fallbacks calm studio (desk false None) "Tea")
    as (_ & _ & Hnotify).
  destruct (Hnotify eq_refl) as (Hcalls & _).
  split; [apply Hbeep; right; right; reflexivity | exact Hcalls].
Defined.

(** C7, as the spec words it, fails when the mute box is checked.
    Without a system tray and with the box checked [_notify] shows the
    overlay and makes no toolkit call at all: the sound is not played. *)
Lemma muted_without_tray_counterexample :
  let mw := desk true None in
  let r := _notify calm "Tea" mw in
  tray mw = None
  /\ _overlay (window r) = Some (shown_overlay "Tea")
  /\ calls r = []
  /\ existsb audible (calls r) = false.
Proof. cbv zeta. repeat split. Qed.

(** *** Expiry *)

(** C1, as the code has it.  When a tick of a timer in the layout brings
    its remaining time to zero or below, the shell plays the sound
    unless the mute box is checked, shows a modal overlay full screen
    whose buttons are snooze for 5 minutes, snooze for 10 minutes and
    dismiss, and asks the tray for a balloon exactly when there is a
    tray. *)
Theorem expiry_notification tk i now now' mw w :
  list_layout mw !! i = Some w ->
  _tick w = true ->
  expires now w ->
  let r := tick_timeout tk i now now' mw in
  existsb audible (calls r) = negb (mute_chk mw)
  /\ (exists ov, _overlay (window r) = Some ov
                 /\ _title ov = announced w /\ modal ov = true
                 /\ visible ov = true /\ fullscreen ov = true)
  /\ map snd AlarmOverlay.buttons = [snooze 5; snooze 10; dismiss]
  /\ existsb is_balloon (calls r) =
       match tray mw with Some _ => true | None => false end
  /\ (tray mw <> None -> In (balloon tk (announced w)) (calls r)).
Proof.
  intros Hw Htick Hexp. cbv zeta.
  destruct (tick_timeout_expired_run tk i now now' mw w Hw Htick Hexp)
    as (_ & Ho & Hc).
  rewrite Hc, Ho, notify_log_audible, notify_log_balloon.
  split; [reflexivity | split; [| split; [reflexivity | split]]].
  - exists (shown_overlay (announced w)). repeat split.
  - reflexivity.
  - intros Htray. unfold notify_log. apply in_or_app. right.
    destruct (tray mw); [left; reflexivity | congruence].
Qed.

(** The repeating timer of the sample window expires at clock reading 13:
    with the mute box unchecked and a tray, sound and balloon are there. *)
Lemma expiry_notification_witness :
  let r := tick_timeout calm 0 13 13 (desk false (Some tray_icon)) in
  existsb audible (calls r) = true /\ existsb is_balloon (calls r) = true.
Proof.
  assert (Hexp : expires 13 tea) by (vm_compute; discriminate).
  destruct (expiry_notification calm 0%nat 13 13
              (desk false (Some tray_icon)) tea eq_refl eq_refl Hexp)
    as (Hsound & _ & _ & Hballoon & _).
  split; [exact Hsound | exact Hballoon].
Defined.

(** C1, as the spec words it, fails when the mute box is checked.  The
    same timer expires in the same window with the box checked: the
    overlay is shown and the balloon requested, and [play] is not called,
    so that no audible cue is made. *)
Lemma muted_expiry_counterexample :
  let mw := desk true (Some tray_icon) in
  let r := tick_timeout calm 0 13 13 mw in
  list_layout mw !! 0%nat = Some tea
  /\ _tick tea = true
  /\ expires 13 tea
  /\ _overlay (window r) = Some (shown_overlay "Tea")
  /\ calls r = [balloon calm "Tea"]
  /\ existsb audible (calls r) = false.
Proof. cbv zeta. repeat split; vm_compute; congruence. Qed.

(** C2.  When a tick of a timer in the layout expires, the notification
    fires and then: a timer whose repeat box is checked has its
    remaining time back at its total duration and is running again, its
    tick callback started from the clock reading [now'] of the restart;
    a timer whose repeat box is unchecked is stopped with zero
    remaining.  The other timers are as they were. *)
Theorem repeat_or_stop tk i now now' mw w :
  list_layout mw !! i = Some w ->
  _tick w = true ->
  expires now w ->
  1 <= total w ->
  let r := tick_timeout tk i now now' mw in
  calls r = notify_log tk (announced w) mw
  /\ _overlay (window r) = Some (shown_overlay (announced w))
  /\ (forall j, j <> i -> list_layout (window r) !! j = list_layout mw !! j)
  /\ exists w', list_layout (window r) !! i = Some w'
       /\ total w' = total w
       /\ (repeat_chk w = true ->
           remaining w' = inject_Z (total w) /\ running w' = true
           /\ _tick w' = true /\ _last w' = Some now')
       /\ (repeat_chk w = false ->
           remaining w' = 0%Q /\ running w' = false /\ _tick w' = false).
Proof.
  intros Hw Htick Hexp Htotal. cbv zeta.
  assert (Hi : (i < length (list_layout mw))%nat)
    by (eapply lookup_lt_Some; exact Hw).
  destruct (tick_timeout_expired_run tk i now now' mw w Hw Htick Hexp)
    as (Hl & Ho & Hc).
  rewrite Hl, Ho, Hc. rewrite (_on_tick_expired now w Hexp).
  cbn [fst].
  split; [reflexivity | split; [reflexivity | split]].
  - intros j Hj. apply list_lookup_insert_ne. congruence.
  - eexists. split; [apply list_lookup_insert_eq; exact Hi |].
    destruct (repeat_chk w); cbn; unfold Py.max;
      rewrite ?Z.max_r by exact Htotal;
      (split; [reflexivity | split; intros; [repeat split | ]]);
      try discriminate; repeat split.
Qed.

(** In the sample window a tick at clock reading 13 expires the repeating
    timer, which runs again with 2 seconds, and the one-shot timer, which
    stays stopped at zero. *)
Lemma repeat_or_stop_witness :
  let r := tick_timeout calm 0 13 14 (desk false None) in
  let s := tick_timeout calm 1 13 14 (desk false None) in
  (exists w', list_layout (window r) !! 0%nat = Some w'
              /\ remaining w' = 2%Q /\ running w' = true)
  /\ (exists w', list_layout (window s) !! 1%nat = Some w'
                 /\ remaining w' = 0%Q /\ running w' = false).
Proof.
  assert (Htea : expires 13 tea) by (vm_compute; discriminate).
  assert (Hegg : expires 13 egg) by (vm_compute; discriminate).
  assert (Htotal : 1 <= 2) by lia.
  destruct (repeat_or_stop calm 0%nat 13 14 (desk false None) tea
              eq_refl eq_refl Htea Htotal)
    as (_ & _ & _ & w0 & Hw0 & _ & Hrep & _).
  destruct (repeat_or_stop calm 1%nat 13 14 (desk false None) egg
              eq_refl eq_refl Hegg Htotal)
    as (_ & _ & _ & w1 & Hw1 & _ & _ & Hstop).
  destruct (Hrep eq_refl) as (Hrem0 & Hrun0 & _).
  destruct (Hstop eq_refl) as (Hrem1 & Hrun1 & _).
  split; [exists w0 | exists w1]; auto.
Defined.

(** *** Snooze and dismiss *)

Lemma add_timer_run title seconds repeat mw :
  add_timer title seconds repeat mw =
    (tt,
     with_clear_btn true
       (with_list_layout
          (list_layout mw ++ [TimerWidget.__init__ title seconds repeat])
          mw),
     []).
Proof.
  unfold add_timer. run_ui.
  rewrite existsb_app. cbn. rewrite orb_true_r. reflexivity.
Qed.

(** C3.  A snooze request of 5 or 10 minutes from the overlay (the two
    snooze buttons it has) hides the overlay and appends exactly one
    timer to the layout: not repeating, not running, of [m * 60] seconds.
    Dismiss hides the overlay and leaves the layout as it was. *)
Theorem snooze_and_dismiss mw ov m :
  _overlay mw = Some ov ->
  m = 5 \/ m = 10 ->
  let r := overlay_clicked (snooze m) mw in
  let d := overlay_clicked dismiss mw in
  In (snooze m) (map snd AlarmOverlay.buttons)
  /\ _overlay (window r) = Some (AlarmOverlay.hide ov)
  /\ visible (AlarmOverlay.hide ov) = false
  /\ (exists w, list_layout (window r) = list_layout mw ++ [w]
                /\ repeat_chk w = false /\ running w = false
                /\ total w = m * 60 /\ remaining w = inject_Z (m * 60)
                /\ title_edit w = snooze_label m)
  /\ _overlay (window d) = Some (AlarmOverlay.hide ov)
  /\ list_layout (window d) = list_layout mw.
Proof.
  intros Hov Hm. cbv zeta.
  unfold overlay_clicked. run_ui. rewrite Hov. run_ui.
  unfold _on_snooze. rewrite add_timer_run. cbn.
  split; [destruct Hm as [-> | ->]; cbn; auto |].
  split; [reflexivity | split; [reflexivity | split]].
  - eexists. split; [reflexivity |].
    destruct Hm as [-> | ->]; repeat split.
  - split; reflexivity.
Qed.

(** With an alarm on screen over two timers, snoozing for 5 minutes leaves
    three timers, the last of 300 seconds, and dismissing leaves two. *)
Lemma snooze_and_dismiss_witness :
  (exists w, list_layout (window (overlay_clicked (snooze 5) ringing))
             = [tea; egg; w]
             /\ total w = 300 /\ repeat_chk w = false)
  /\ list_layout (window (overlay_clicked dismiss ringing)) = [tea; egg].
Proof.
  destruct (snooze_and_dismiss ringing (shown_overlay "Tea") 5
              eq_refl (or_introl eq_refl))
    as (_ & _ & _ & (w & Hl & Hrep & _ & Htotal & _) & _ & Hd).
  split; [exists w; auto | exact Hd].
Defined.

(** *** The add-timer form *)

Lemma str_or_twice (s d : string) :
  Py.str_or (Py.str_or s d) d = Py.str_or s d.
Proof. destruct s, d; reflexivity. Qed.

(** C8, as the code has it.  Submitting the form with a duration of
    zero (the code rejects every duration that is not positive) leaves
    the whole window as it was, the form inputs included, and only shows
    a status message.  With a positive duration exactly one timer is
    appended: stopped, of that duration, carrying the repeat choice of
    the form.  Its title is the entered name without its surrounding
    white space (the entered name itself when it has none), and "Timer"
    when nothing is left of it.  The name is then cleared, the three spin
    boxes are set to zero and the repeat box is unchecked. *)
Theorem add_timer_from_inputs_outcome mw :
  let r := add_timer_from_inputs mw in
  let name := Py.strip (name_edit mw) in
  trimmed_of (name_edit mw) name
  /\ (starts_clean (name_edit mw) -> ends_clean (name_edit mw) ->
      name = name_edit mw)
  /\ (form_total mw <= 0 ->
      window r = mw
      /\ calls r = [ok (statusBar_showMessage
                          "Please set a duration greater than 0." 3000)])
  /\ (0 < form_total mw ->
      (exists w, list_layout (window r) = list_layout mw ++ [w]
                 /\ total w = form_total mw
                 /\ remaining w = inject_Z (form_total mw)
                 /\ running w = false
                 /\ repeat_chk w = repeat_new mw
                 /\ (name = "" -> title_edit w = "Timer")
                 /\ (name <> "" -> title_edit w = name))
      /\ name_edit (window r) = ""
      /\ h_spin (window r) = 0 /\ m_spin (window r) = 0
      /\ s_spin (window r) = 0
      /\ repeat_new (window r) = false).
Proof.
  cbv zeta.
  split; [apply strip_trimmed | split; [apply strip_id |]].
  unfold form_total, add_timer_from_inputs. run_ui.
  split; intros Htotal.
  - destruct (Z.leb_spec (h_spin mw * 3600 + m_spin mw * 60 + s_spin mw) 0);
      [split; reflexivity | lia].
  - destruct (Z.leb_spec (h_spin mw * 3600 + m_spin mw * 60 + s_spin mw) 0);
      [lia |].
    rewrite add_timer_run. cbn.
    split; [| repeat split].
    eexists. split; [reflexivity |]. cbn.
    unfold Py.max. rewrite Z.max_r by lia.
    repeat split.
    + intros ->. reflexivity.
    + intros Hname. destruct (Py.strip (name_edit mw));
        [congruence | reflexivity].
Qed.

(** A form asking for 1 h 2 min 5 s under a padded name gives one timer of
    3725 seconds with the name trimmed and an empty form; a form whose
    name is three spaces gives a timer called Timer; a form left at zero
    changes nothing. *)
Lemma add_timer_from_inputs_outcome_witness :
  (exists w, list_layout (window (add_timer_from_inputs filled_form)) = [w]
             /\ total w = 3725 /\ title_edit w = "Tea time")
  /\ (exists w, list_layout (window (add_timer_from_inputs blank_form)) = [w]
                /\ total w = 30 /\ title_edit w = "Timer")
  /\ name_edit (window (add_timer_from_inputs filled_form)) = ""
  /\ window (add_timer_from_inputs (desk false None)) = desk false None.
Proof.
  destruct (add_timer_from_inputs_outcome filled_form) as (_ & _ & _ & Hadd).
  destruct (add_timer_from_inputs_outcome blank_form) as (_ & _ & _ & Hblank).
  destruct (add_timer_from_inputs_outcome (desk false None))
    as (_ & _ & Hrej & _).
  destruct Hadd as ((w & Hl & Htotal & _ & _ & _ & _ & Htitle) & Hname & _);
    [vm_compute; reflexivity |].
  destruct Hblank as ((b & Hlb & Htb & _ & _ & _ & Hdefault & _) & _);
    [vm_compute; reflexivity |].
  destruct Hrej as (Hsame & _); [vm_compute; discriminate |].
  split; [exists w; repeat split; [exact Hl | exact Htotal |] |].
  - apply Htitle. vm_compute. discriminate.
  - split; [exists b; repeat split; [exact Hlb | exact Htb |] |].
    + apply Hdefault. reflexivity.
    + split; [exact Hname | exact Hsame].
Defined.

(** C8, as the spec words it, fails on a name entered with white space
    around it.  The form holds the name Tea time between two spaces and
    one, and a positive duration; the timer added is not called by the
    entered name but Tea time, without the spaces. *)
Lemma padded_name_counterexample :
  let r := add_timer_from_inputs filled_form in
  0 < form_total filled_form
  /\ name_edit filled_form = "  Tea time "
  /\ exists w, list_layout (window r) = [w]
               /\ title_edit w = "Tea time"
               /\ title_edit w <> name_edit filled_form.
Proof.
  cbv zeta. split; [reflexivity | split; [reflexivity |]].
  eexists. split; [reflexivity |]. split; [reflexivity |].
  vm_compute. discriminate.
Qed.

End MainWindowFacts.

(** ** The invariant of a timer *)

Section Invariant.

Import TimerWidget MainWindow.

Implicit Types (mw : MainWindow) (w : TimerWidget) (now : Q).

Lemma inv_set_seconds seconds w :
  timer_inv (fst (set_seconds seconds w)).
Proof.
  unfold timer_inv. cbn. unfold Py.max. split; [lia |].
  rewrite <- Zle_Qle. lia.
Qed.

Lemma inv___init__ title seconds repeat :
  timer_inv (__init__ title seconds repeat).
Proof.
  unfold timer_inv. cbn. unfold Py.max. split; [lia |].
  rewrite <- Zle_Qle. lia.
Qed.

Lemma inv_start now w : timer_inv w -> timer_inv (start now w).
Proof. intros H. exact H. Qed.

Lemma inv_pause w : timer_inv w -> timer_inv (pause w).
Proof. intros H. exact H. Qed.

Lemma inv_reset w : timer_inv w -> timer_inv (fst (reset w)).
Proof. intros _. unfold reset. apply inv_set_seconds. Qed.

Lemma inv_restarted now w : timer_inv w -> timer_inv (restarted now w).
Proof. intros _. unfold restarted. apply inv_start, inv_set_seconds. Qed.

Lemma elapsed_nonneg now w :
  clock_not_set_back now w -> (0 <= elapsed now w)%Q.
Proof.
  unfold clock_not_set_back, elapsed.
  destruct (_last w) as [l |]; intros H; lra.
Qed.

Lemma inv__on_tick now w :
  timer_inv w -> clock_not_set_back now w ->
  timer_inv (fst (_on_tick now w)).
Proof.
  intros [Htotal Hrem] Hclock.
  pose proof (elapsed_nonneg now w Hclock) as Hdt.
  destruct (Qlt_le_dec 0 (remaining w - elapsed now w)) as [Hpos | Hexp].
  - rewrite (_on_tick_running now w Hpos). split; cbn; [exact Htotal | lra].
  - rewrite (_on_tick_expired now w Hexp). split; cbn; [exact Htotal |].
    change 0%Q with (inject_Z 0). rewrite <- Zle_Qle. lia.
Qed.

Lemma inv_tick_timeout tk i now now' mw w :
  Forall timer_inv (list_layout mw) ->
  list_layout mw !! i = Some w ->
  clock_not_set_back now w ->
  Forall timer_inv (list_layout (window (tick_timeout tk i now now' mw))).
Proof.
  intros Hall Hw Hclock.
  assert (Hinv : timer_inv w)
    by (eapply Forall_lookup_1; [exact Hall | exact Hw]).
  pose proof (inv__on_tick now w Hinv Hclock) as Hinv1.
  destruct (_tick w) eqn:Htick.
  - destruct (Qlt_le_dec 0 (remaining w - elapsed now w)) as [Hpos | Hexp].
    + rewrite (tick_timeout_running tk i now now' mw w Hw Htick Hpos).
      apply Forall_insert; assumption.
    + destruct (tick_timeout_expired_run tk i now now' mw w Hw Htick Hexp)
        as (Hl & _).
      rewrite Hl. apply Forall_insert; [exact Hall |].
      destruct (repeat_chk w); [apply inv_restarted |]; exact Hinv1.
  - rewrite (tick_timeout_stopped tk i now now' mw w Hw Htick). exact Hall.
Qed.

(** C9, as the code has it.  With the invariant [timer_inv] (the total
    is at least 1 and the remaining time is at most the total):
    construction and [set_seconds] establish it for every argument;
    [start], [pause] and [reset] preserve it; a tick preserves it when
    its clock reading is not before the reading kept in [_last]; under
    the same condition a tick delivered by the shell, the restart of a
    repeating timer included, preserves it for every timer of the
    layout.  Construction with 0 seconds and [set_seconds(0)] give a
    total of 1. *)
Theorem timer_invariant :
  (forall title seconds repeat, timer_inv (__init__ title seconds repeat))
  /\ (forall seconds w, timer_inv (fst (set_seconds seconds w)))
  /\ (forall now w, timer_inv w -> timer_inv (start now w))
  /\ (forall w, timer_inv w -> timer_inv (pause w))
  /\ (forall w, timer_inv w -> timer_inv (fst (reset w)))
  /\ (forall now w,
        timer_inv w -> clock_not_set_back now w ->
        timer_inv (fst (_on_tick now w)))
  /\ (forall tk i now now' mw w,
        Forall timer_inv (list_layout mw) ->
        list_layout mw !! i = Some w ->
        clock_not_set_back now w ->
        Forall timer_inv
          (list_layout (window (tick_timeout tk i now now' mw))))
  /\ (forall title repeat, total (__init__ title 0 repeat) = 1)
  /\ (forall w, total (fst (set_seconds 0 w)) = 1).
Proof.
  split; [exact inv___init__ |].
  split; [exact inv_set_seconds |].
  split; [exact inv_start |].
  split; [exact inv_pause |].
  split; [exact inv_reset |].
  split; [exact inv__on_tick |].
  split; [exact inv_tick_timeout |].
  split; reflexivity.
Qed.

(** The repeating sample timer keeps the invariant through a tick a
    quarter of a second after its start, through the tick that expires and
    restarts it in the sample window, and through a reset. *)
Lemma timer_invariant_witness :
  timer_inv (fst (_on_tick (41 # 4) tea))
  /\ Forall timer_inv
       (list_layout (window (tick_timeout calm 0 13 14 (desk false None))))
  /\ timer_inv (fst (reset tea)).
Proof.
  destruct timer_invariant
    as (_ & _ & _ & _ & Hreset & Htick & Hshell & _).
  assert (Htea : timer_inv tea) by (split; vm_compute; discriminate).
  assert (Hegg : timer_inv egg) by (split; vm_compute; discriminate).
  split; [| split].
  - apply Htick; [exact Htea | vm_compute; discriminate].
  - apply (Hshell calm 0%nat 13%Q 14%Q (desk false None) tea).
    + constructor; [exact Htea |].
      constructor; [exact Hegg | constructor].
    + reflexivity.
    + vm_compute; discriminate.
  - apply Hreset, Htea.
Defined.

(** C9, as the spec words it, fails on a tick whose clock reading is
    before the previous one ([time.time()] follows the system clock, which
    can be set back).  The sample timer has 2 seconds of 2 left and was
    started at clock reading 10; a tick reading 5 adds 5 seconds and
    leaves 7 remaining of a total of 2. *)
Lemma clock_set_back_counterexample :
  let w' := fst (_on_tick 5 tea) in
  timer_inv tea
  /\ running tea = true /\ _last tea = Some 10%Q
  /\ total w' = 2 /\ (remaining w' == 7)%Q
  /\ ~ timer_inv w'.
Proof.
  cbv zeta. repeat split; try (vm_compute; congruence).
  intros [_ Hrem]. vm_compute in Hrem. apply Hrem. reflexivity.
Qed.

End Invariant.

(** * More of the program *)

(** ** Timers one at a time *)

Section WidgetInvariants.

Import TimerWidget.

Implicit Types (w : TimerWidget) (now : Q).

Lemma int_inject_Z (n : Z) : Py.int (inject_Z n) = n.
Proof. unfold Py.int. cbn. apply Z.quot_1_r. Qed.

Lemma ok___init__ title seconds repeat :
  1 <= seconds <= 86399 -> widget_ok (__init__ title seconds repeat).
Proof.
  intros Hs. unfold widget_ok, bounds_ok, state_ok, display_ok. cbn.
  unfold Py.max. rewrite int_inject_Z, Z.max_r by lia.
  repeat split; try lia; try discriminate.
  change 0%Q with (inject_Z 0). rewrite <- Zle_Qle. lia.
Qed.

Lemma ok_start now w : widget_ok w -> widget_ok (start now w).
Proof.
  intros (Hb & _ & Hd). split; [exact Hb | split; [| exact Hd]].
  cbn. repeat split. discriminate.
Qed.

Lemma ok_pause w : widget_ok w -> widget_ok (pause w).
Proof.
  intros (Hb & _ & Hd). split; [exact Hb | split; [| exact Hd]].
  cbn. repeat split. discriminate.
Qed.

Lemma ok_toggle now w : widget_ok w -> widget_ok (toggle now w).
Proof.
  intros Hw. unfold toggle.
  destruct (running w); [apply ok_pause | apply ok_start]; exact Hw.
Qed.

Lemma ok_set_seconds w :
  widget_ok w -> widget_ok (fst (set_seconds (total w) w)).
Proof.
  intros ((Ht & _) & Hs & _).
  unfold widget_ok, bounds_ok, state_ok, display_ok. cbn.
  unfold Py.max. rewrite int_inject_Z, Z.max_r by lia.
  split; [| split; [exact Hs | repeat split; lia]].
  split; [lia |]. change 0%Q with (inject_Z 0). rewrite <- Zle_Qle. lia.
Qed.

Lemma ok_reset w : widget_ok w -> widget_ok (fst (reset w)).
Proof.
  intros Hw. unfold reset.
  apply (ok_set_seconds (pause w)), ok_pause, Hw.
Qed.

Lemma ok_restarted now w : widget_ok w -> widget_ok (restarted now w).
Proof. intros Hw. unfold restarted. apply ok_start, ok_set_seconds, Hw. Qed.

Lemma ok__on_tick now w : widget_ok w -> widget_ok (fst (_on_tick now w)).
Proof.
  intros ((Ht & Hr) & (Hrun & Hlast & Hicon) & (_ & Hrange & _)).
  destruct (Qlt_le_dec 0 (remaining w - elapsed now w)) as [Hpos | Hexp].
  - rewrite (_on_tick_running now w Hpos).
    unfold widget_ok, bounds_ok, state_ok, display_ok. cbn.
    repeat split; try lia; try assumption; try discriminate.
    apply Qlt_le_weak, Hpos.
  - rewrite (_on_tick_expired now w Hexp).
    unfold widget_ok, bounds_ok, state_ok, display_ok. cbn.
    repeat split; try lia; try assumption; try discriminate.
    change (Py.int 0) with 0. lia.
Qed.

Lemma ok_title_typed text w :
  widget_ok w -> widget_ok (fst (title_typed text w)).
Proof.
  intros Hw. exact Hw.
Qed.

Lemma ok_repeat_clicked checked w :
  widget_ok w -> widget_ok (fst (repeat_clicked checked w)).
Proof.
  intros Hw. exact Hw.
Qed.

End WidgetInvariants.

(** ** The slots of the window *)

Section SlotFacts.

Import MainWindow Shell.

Implicit Types (mw : MainWindow) (w : TimerWidget) (tk : Toolkit)
  (i j k : nat) (now : Q) (l : list TimerWidget).

(** Unfolds the plumbing of [UI] in the goal. *)
Ltac run_slot :=
  repeat progress
    (unfold mbind, mret, UI_bind, UI_ret, get, modify, tell, window, calls,
       _on_list_changed;
     cbn -[on_widget _notify _on_timer_finished add_timer]).

Lemma has_items_cons w l : has_items (w :: l) = true.
Proof. reflexivity. Qed.

Lemma has_items_length l : has_items l = negb (Nat.eqb (length l) 0).
Proof. destruct l; reflexivity. Qed.

Lemma has_items_insert i w l : has_items (<[i := w]> l) = has_items l.
Proof. rewrite !has_items_length, length_insert. reflexivity. Qed.

Lemma has_items_insert_raw i w l :
  existsb (fun _ => true) (<[i := w]> l) = existsb (fun _ => true) l.
Proof. apply has_items_insert. Qed.

Lemma has_items_snoc l w : has_items (l ++ [w]) = true.
Proof. destruct l; reflexivity. Qed.

Lemma same_controls_refl mw : same_controls mw mw.
Proof. repeat split. Qed.

(** A method call on one widget that emits [changed] or nothing. *)
Lemma widget_slot_run tk i now f mw w :
  list_layout mw !! i = Some w ->
  snd (f w) = [] \/ snd (f w) = [changed] ->
  let r := (sigs ← on_widget i f; for_each (deliver tk i now) sigs) mw in
  calls r = []
  /\ list_layout (window r) = <[i := fst (f w)]> (list_layout mw)
  /\ _overlay (window r) = _overlay mw
  /\ same_controls mw (window r)
  /\ clear_btn_kept mw (window r).
Proof.
  intros Hw Hsig. cbv zeta. run_slot.
  rewrite (on_widget_run i f mw w Hw).
  destruct Hsig as [-> | ->]; run_slot; unfold clear_btn_kept; cbn;
    repeat split; auto.
Qed.

Lemma widget_slot_miss tk i now f mw :
  list_layout mw !! i = None ->
  (sigs ← on_widget i f; for_each (deliver tk i now) sigs) mw = (tt, mw, []).
Proof.
  intros Hw. run_slot. unfold on_widget. rewrite Hw. reflexivity.
Qed.

Lemma start_clicked_run i now mw :
  start_clicked i now mw =
    (tt,
     match list_layout mw !! i with
     | Some w =>
         with_list_layout
           (<[i := TimerWidget.toggle now w]> (list_layout mw)) mw
     | None => mw
     end, []).
Proof.
  unfold start_clicked. run_slot. unfold on_widget.
  destruct (list_layout mw !! i); reflexivity.
Qed.

Lemma add_timer_from_inputs_run mw :
  add_timer_from_inputs mw =
    if form_total mw <=? 0
    then (tt, mw,
          [ok (statusBar_showMessage
                 "Please set a duration greater than 0." 3000)])
    else (tt,
          with_form "" 0 0 0 false
            (with_clear_btn true
               (with_list_layout
                  (list_layout mw
                   ++ [TimerWidget.__init__
                         (Py.str_or (Py.strip (name_edit mw)) "Timer")
                         (form_total mw) (repeat_new mw)])
                  mw)),
          []).
Proof.
  unfold add_timer_from_inputs, form_total. run_slot.
  destruct (_ <=? 0); [reflexivity |].
  rewrite add_timer_run. reflexivity.
Qed.

Lemma preset_clicked_run k mw :
  preset_clicked k mw =
    match presets !! k with
    | Some (_, m) =>
        (tt,
         with_clear_btn true
           (with_list_layout
              (list_layout mw
               ++ [TimerWidget.__init__ "60 min" (60 * m) false]) mw),
         [])
    | None => (tt, mw, [])
    end.
Proof.
  unfold preset_clicked.
  destruct (presets !! k) as [[label m] |]; [| reflexivity].
  rewrite add_timer_run. reflexivity.
Qed.

Lemma presets_minutes k label m :
  presets !! k = Some (label, m) -> 5 <= m <= 60.
Proof.
  do 6 (destruct k as [| k]; [intros [= _ <-]; lia |]). discriminate.
Qed.

(** The loop of [clear_all] leaves nothing. *)
Lemma clear_loop l :
  foldl (fun l i => delete i l) l (rev (seq 0 (length l))) = [].
Proof.
  induction l as [| w l IH] using rev_ind; [reflexivity |].
  rewrite length_app, Nat.add_comm. cbn [length Nat.add].
  rewrite seq_S, rev_app_distr. cbn [rev app foldl Nat.add].
  rewrite delete_middle, app_nil_r. exact IH.
Qed.

Lemma clear_all_run mw :
  clear_all mw = (tt, with_clear_btn false (with_list_layout [] mw), []).
Proof.
  unfold clear_all. run_slot. rewrite clear_loop. reflexivity.
Qed.

Lemma delete_clicked_run i mw :
  delete_clicked i mw =
    (tt,
     match list_layout mw !! i with
     | Some _ =>
         with_clear_btn (has_items (delete i (list_layout mw)))
           (with_list_layout (delete i (list_layout mw)) mw)
     | None => mw
     end, []).
Proof.
  unfold delete_clicked. run_slot.
  destruct (list_layout mw !! i); reflexivity.
Qed.

Lemma overlay_button_run k mw :
  overlay_button k mw =
    match _overlay mw with
    | Some ov =>
        if visible ov
        then match AlarmOverlay.buttons !! k with
             | Some (_, snooze m) =>
                 (tt,
                  with_clear_btn true
                    (with_list_layout
                       (list_layout mw
                        ++ [TimerWidget.__init__ (snooze_label m) (m * 60)
                              false])
                       (with_overlay (Some (AlarmOverlay.hide ov)) mw)),
                  [])
             | Some (_, dismiss) =>
                 (tt, with_overlay (Some (AlarmOverlay.hide ov)) mw, [])
             | None => (tt, mw, [])
             end
        else (tt, mw, [])
    | None => (tt, mw, [])
    end.
Proof.
  unfold overlay_button. run_slot.
  destruct (_overlay mw) as [ov |] eqn:Hov; [| reflexivity].
  destruct (visible ov); [| reflexivity].
  destruct (AlarmOverlay.buttons !! k) as [[label [m |]] |]; [| | reflexivity].
  - unfold overlay_clicked. run_slot. rewrite Hov. run_slot.
    unfold _on_snooze. rewrite add_timer_run. reflexivity.
  - unfold overlay_clicked. run_slot. rewrite Hov. reflexivity.
Qed.

Lemma buttons_minutes k label m :
  AlarmOverlay.buttons !! k = Some (label, snooze m) -> m = 5 \/ m = 10.
Proof.
  do 3 (destruct k as [| k]; [intros [= _ <-] || intros [=]; auto |]).
  discriminate.
Qed.

Lemma _on_timer_finished_controls tk i now mw w :
  list_layout mw !! i = Some w ->
  let r := _on_timer_finished tk i now mw in
  same_controls mw (window r) /\ clear_btn_kept mw (window r).
Proof.
  intros Hw. cbv zeta.
  assert (Hi : (i < length (list_layout mw))%nat)
    by (eapply lookup_lt_Some; exact Hw).
  destruct (repeat_chk w) eqn:Hrep.
  - unfold _on_timer_finished. run_slot.
    rewrite Hw, Hrep. fold (announced w).
    rewrite _notify_run.
    rewrite (on_widget_run i _ _ w) by exact Hw.
    run_slot.
    erewrite on_widget_run
      by (cbn; apply list_lookup_insert_eq; exact Hi).
    cbn. split; [repeat split |].
    right. unfold has_items. cbn.
    rewrite !has_items_insert_raw. reflexivity.
  - rewrite (_on_timer_finished_once tk i now mw w Hw Hrep).
    unfold window. cbn. split; [repeat split | left; reflexivity].
Qed.

Lemma tick_timeout_miss tk i now now' mw :
  list_layout mw !! i = None ->
  tick_timeout tk i now now' mw = (tt, mw, []).
Proof.
  intros Hw. unfold tick_timeout. run_slot. rewrite Hw. reflexivity.
Qed.

Lemma tick_timeout_layout tk i now now' mw w :
  list_layout mw !! i = Some w ->
  list_layout (window (tick_timeout tk i now now' mw)) =
    <[i := after_timeout now now' w]> (list_layout mw).
Proof.
  intros Hw. unfold after_timeout.
  destruct (_tick w) eqn:Htick.
  - destruct (Qlt_le_dec 0 (remaining w - elapsed now w)) as [Hpos | Hexp].
    + rewrite (tick_timeout_running tk i now now' mw w Hw Htick Hpos).
      rewrite (_on_tick_running now w Hpos). reflexivity.
    + destruct (tick_timeout_expired_run tk i now now' mw w Hw Htick Hexp)
        as (Hl & _).
      rewrite Hl, (_on_tick_expired now w Hexp). reflexivity.
  - rewrite (tick_timeout_stopped tk i now now' mw w Hw Htick).
    unfold window. cbn. symmetry. apply list_insert_id, Hw.
Qed.

Lemma tick_timeout_controls tk i now now' mw :
  let r := tick_timeout tk i now now' mw in
  same_controls mw (window r) /\ clear_btn_kept mw (window r).
Proof.
  cbv zeta. destruct (list_layout mw !! i) as [w |] eqn:Hw.
  - assert (Hi : (i < length (list_layout mw))%nat)
      by (eapply lookup_lt_Some; exact Hw).
    destruct (_tick w) eqn:Htick.
    + destruct (Qlt_le_dec 0 (remaining w - elapsed now w)) as [Hpos | Hexp].
      * rewrite (tick_timeout_running tk i now now' mw w Hw Htick Hpos).
        unfold window. cbn. split; [repeat split | left; reflexivity].
      * rewrite (tick_timeout_expired tk i now now' mw w Hw Htick Hexp).
        set (mw1 := with_list_layout _ mw).
        destruct (_on_timer_finished_controls tk i now' mw1
                    (fst (TimerWidget._on_tick now w)))
          as (Hsame & Hclear).
        { apply list_lookup_insert_eq. exact Hi. }
        unfold window in *. cbn [fst snd] in *.
        split; [exact Hsame | exact Hclear].
    + rewrite (tick_timeout_stopped tk i now now' mw w Hw Htick).
      unfold window. cbn. split; [repeat split | left; reflexivity].
  - rewrite (tick_timeout_miss tk i now now' mw Hw).
    unfold window. cbn. split; [repeat split | left; reflexivity].
Qed.

Lemma ok_after_timeout now now' w :
  widget_ok w -> widget_ok (after_timeout now now' w).
Proof.
  intros Hw. unfold after_timeout.
  destruct (_tick w); [| exact Hw].
  pose proof (ok__on_tick now w Hw) as Hw1.
  destruct (snd (TimerWidget._on_tick now w)); [exact Hw1 |].
  destruct (repeat_chk w); [apply ok_restarted |]; exact Hw1.
Qed.

End SlotFacts.

(** ** Sessions *)

Section SessionFacts.

Import MainWindow Shell.

Implicit Types (mw : MainWindow) (w : TimerWidget) (tk : Toolkit)
  (i j k : nat) (now : Q) (l : list TimerWidget) (e : Event).

Lemma window_ok_insert mw mw' i w' :
  window_ok mw ->
  widget_ok w' ->
  list_layout mw' = <[i := w']> (list_layout mw) ->
  same_controls mw mw' ->
  clear_btn_kept mw mw' ->
  window_ok mw'.
Proof.
  intros (Hall & Hclear & Hform) Hw' Hl Hsame Hkept.
  destruct Hsame as (_ & _ & _ & _ & Hh & Hm & Hs & _).
  split; [| split].
  - rewrite Hl. apply Forall_insert; assumption.
  - destruct Hkept as [Hk | Hk]; [| exact Hk].
    rewrite Hk, Hclear, Hl, has_items_insert. reflexivity.
  - unfold form_ok. rewrite Hh, Hm, Hs. exact Hform.
Qed.

Lemma window_ok_snoc mw w :
  window_ok mw ->
  widget_ok w ->
  window_ok (with_clear_btn true (with_list_layout (list_layout mw ++ [w]) mw)).
Proof.
  intros (Hall & _ & Hform) Hw. split; [| split].
  - cbn. apply Forall_app. split; [exact Hall |].
    constructor; [exact Hw | constructor].
  - cbn. symmetry. apply has_items_snoc.
  - exact Hform.
Qed.

Lemma bound_in_range (lo hi v : Z) : lo <= hi -> lo <= bound (lo, hi) v <= hi.
Proof. unfold bound. cbn. lia. Qed.

Lemma handle_ok tk e mw :
  window_ok mw -> window_ok (window (handle tk e mw)).
Proof.
  intros Hok. pose proof Hok as (Hall & Hclear & Hform).
  destruct e as [| k | | name h m s rep | checked | i text | i checked
                 | i now | i | i | i now now' | k]; cbn [handle].
  - rewrite add_timer_from_inputs_run.
    destruct (Z.leb_spec (form_total mw) 0) as [Hle | Hpos]; [exact Hok |].
    unfold window. cbn [fst snd].
    assert (Hnew : window_ok
              (with_clear_btn true
                 (with_list_layout
                    (list_layout mw
                     ++ [TimerWidget.__init__
                           (Py.str_or (Py.strip (name_edit mw)) "Timer")
                           (form_total mw) (repeat_new mw)]) mw))).
    { apply window_ok_snoc; [exact Hok |]. apply ok___init__.
      unfold form_total, form_ok in *. lia. }
    destruct Hnew as (Hall' & Hclear' & _).
    split; [exact Hall' | split; [exact Hclear' |]].
    unfold form_ok. cbn. lia.
  - rewrite preset_clicked_run.
    destruct (presets !! k) as [[label m] |] eqn:Hk; [| exact Hok].
    apply window_ok_snoc; [exact Hok |]. apply ok___init__.
    pose proof (presets_minutes k label m Hk). lia.
  - rewrite clear_all_run. split; [| split]; [constructor | reflexivity |].
    exact Hform.
  - unfold Shell.form_typed, modify, window. cbn.
    split; [exact Hall | split; [exact Hclear |]].
    unfold form_ok, h_range, m_range, s_range.
    cbn [h_spin m_spin s_spin with_form].
    pose proof (bound_in_range 0 23 h). pose proof (bound_in_range 0 59 m).
    pose proof (bound_in_range 0 59 s). lia.
  - exact Hok.
  - unfold Shell.title_typed.
    destruct (list_layout mw !! i) as [w |] eqn:Hw.
    + destruct (widget_slot_run tk i 0 (TimerWidget.title_typed text) mw w Hw)
        as (_ & Hl & _ & Hsame & Hkept).
      { left. reflexivity. }
      eapply window_ok_insert; eauto.
      apply ok_title_typed. eapply Forall_lookup_1; eauto.
    + rewrite widget_slot_miss by exact Hw. exact Hok.
  - unfold Shell.repeat_clicked.
    destruct (list_layout mw !! i) as [w |] eqn:Hw.
    + destruct (widget_slot_run tk i 0 (TimerWidget.repeat_clicked checked)
                  mw w Hw)
        as (_ & Hl & _ & Hsame & Hkept).
      { left. reflexivity. }
      eapply window_ok_insert; eauto.
      apply ok_repeat_clicked. eapply Forall_lookup_1; eauto.
    + rewrite widget_slot_miss by exact Hw. exact Hok.
  - rewrite start_clicked_run. unfold window. cbn [fst snd].
    destruct (list_layout mw !! i) as [w |] eqn:Hw; [| exact Hok].
    eapply window_ok_insert;
      [exact Hok | | reflexivity | repeat split | left; reflexivity].
    apply ok_toggle. eapply Forall_lookup_1; eauto.
  - unfold reset_clicked.
    destruct (list_layout mw !! i) as [w |] eqn:Hw.
    + destruct (widget_slot_run tk i 0 TimerWidget.reset mw w Hw)
        as (_ & Hl & _ & Hsame & Hkept); [right; reflexivity |].
      eapply window_ok_insert; eauto.
      apply ok_reset. eapply Forall_lookup_1; eauto.
    + rewrite widget_slot_miss by exact Hw. exact Hok.
  - rewrite delete_clicked_run. unfold window. cbn [fst snd].
    destruct (list_layout mw !! i) as [w |] eqn:Hw; [| exact Hok].
    split; [| split; [reflexivity | exact Hform]].
    cbn. apply Forall_delete, Hall.
  - destruct (list_layout mw !! i) as [w |] eqn:Hw.
    + destruct (tick_timeout_controls tk i now now' mw) as (Hsame & Hkept).
      eapply window_ok_insert;
        [exact Hok | | apply tick_timeout_layout; exact Hw | exact Hsame
         | exact Hkept].
      apply ok_after_timeout. eapply Forall_lookup_1; eauto.
    + rewrite tick_timeout_miss by exact Hw. exact Hok.
  - rewrite overlay_button_run.
    destruct (_overlay mw) as [ov |]; [| exact Hok].
    destruct (visible ov); [| exact Hok].
    destruct (AlarmOverlay.buttons !! k) as [[label [m |]] |] eqn:Hk;
      [| exact Hok | exact Hok].
    unfold window. cbn [fst snd].
    apply (window_ok_snoc (with_overlay (Some (AlarmOverlay.hide ov)) mw));
      [exact Hok |].
    apply ok___init__. destruct (buttons_minutes k label m Hk); lia.
Qed.

Lemma __init___ok HAS_SOUND ctor_raises path tray_available :
  window_ok (Shell.__init__ HAS_SOUND ctor_raises path tray_available).
Proof.
  split; [constructor | split; [reflexivity |]].
  unfold form_ok. cbn. lia.
Qed.

Lemma run_ok events mw : window_ok mw -> window_ok (run events mw).
Proof.
  revert mw. induction events as [| [tk e] events IH]; intros mw Hok.
  - exact Hok.
  - cbn [run]. apply IH, handle_ok, Hok.
Qed.

Lemma session_ok HAS_SOUND ctor_raises path tray_available events :
  window_ok (session HAS_SOUND ctor_raises path tray_available events).
Proof. apply run_ok, __init___ok. Qed.

End SessionFacts.

(** ** Buttons of the window *)

Section ButtonFacts.

Import MainWindow Shell.

Implicit Types (mw : MainWindow) (w : TimerWidget) (tk : Toolkit)
  (i j k : nat) (now : Q).

(** X1.  A click on a preset button appends exactly one timer of sixty
    times its minutes in seconds, stopped and not repeating, and makes no
    toolkit call.  Its title is "60 min" for every button: the lambda
    reads [label] when it is called, after the loop of [__init__] has left
    it at the label of the last preset. *)
Theorem preset_adds_timer k label m mw :
  presets !! k = Some (label, m) ->
  let r := preset_clicked k mw in
  calls r = []
  /\ (exists w, list_layout (window r) = list_layout mw ++ [w]
                /\ title_edit w = "60 min"
                /\ total w = 60 * m /\ remaining w = inject_Z (60 * m)
                /\ running w = false /\ repeat_chk w = false)
  /\ clear_btn (window r) = true
  /\ _overlay (window r) = _overlay mw
  /\ same_controls mw (window r).
Proof.
  intros Hk. cbv zeta. rewrite preset_clicked_run, Hk.
  pose proof (presets_minutes k label m Hk) as Hm.
  unfold window, calls. cbn [fst snd].
  split; [reflexivity | split; [| repeat split]].
  eexists. split; [reflexivity |]. cbn. unfold Py.max.
  rewrite Z.max_r by lia. repeat split.
Qed.

(** The first preset button, labelled 5 min, on the sample window. *)
Lemma preset_adds_timer_witness :
  exists w, list_layout (window (preset_clicked 0 (desk false None)))
            = [tea; egg; w]
            /\ title_edit w = "60 min" /\ total w = 300.
Proof.
  destruct (preset_adds_timer 0 "5 min" 5 (desk false None) eq_refl)
    as (_ & (w & Hl & Htitle & Htotal & _) & _).
  exists w. auto.
Defined.

(** X2.  [clear_all] leaves the layout empty and the clear button
    disabled, whatever the layout held; it makes no toolkit call and
    leaves the overlay and the other controls alone. *)
Theorem clear_all_empties mw :
  let r := clear_all mw in
  list_layout (window r) = []
  /\ clear_btn (window r) = false
  /\ calls r = []
  /\ _overlay (window r) = _overlay mw
  /\ same_controls mw (window r).
Proof. cbv zeta. rewrite clear_all_run. repeat split. Qed.

(** X3.  A click on the delete button of the timer at position [i] takes
    that timer, and no other, out of the layout: the timers before it stay
    where they are and those after it move up by one.  The clear button
    is enabled exactly when a timer is left; no toolkit call is made. *)
Theorem delete_removes_one i mw w :
  list_layout mw !! i = Some w ->
  let r := delete_clicked i mw in
  length (list_layout (window r)) = pred (length (list_layout mw))
  /\ (forall j, (j < i)%nat ->
        list_layout (window r) !! j = list_layout mw !! j)
  /\ (forall j, (i <= j)%nat ->
        list_layout (window r) !! j = list_layout mw !! S j)
  /\ clear_btn (window r) = has_items (list_layout (window r))
  /\ calls r = []
  /\ _overlay (window r) = _overlay mw
  /\ same_controls mw (window r).
Proof.
  intros Hw. cbv zeta. rewrite delete_clicked_run, Hw.
  unfold window, calls. cbn [fst snd]. cbn.
  assert (Hi : (i < length (list_layout mw))%nat)
    by (eapply lookup_lt_Some; exact Hw).
  split; [| split; [| split; [| repeat split]]].
  - rewrite length_delete by (rewrite Hw; eauto). lia.
  - intros j Hj. apply list_lookup_delete_lt, Hj.
  - intros j Hj. apply list_lookup_delete_ge, Hj.
Qed.

(** Deleting the first of the two sample timers leaves the second. *)
Lemma delete_removes_one_witness :
  list_layout (window (delete_clicked 0 (desk false None))) !! 0%nat
  = Some egg
  /\ length (list_layout (window (delete_clicked 0 (desk false None))))
     = 1%nat.
Proof.
  destruct (delete_removes_one 0 (desk false None) tea eq_refl)
    as (Hlen & _ & Hup & _).
  split; [apply (Hup 0%nat); lia | exact Hlen].
Defined.

(** X14.  The timers are independent: editing the title, clicking the
    repeat box, the start/pause button or the reset button of the timer
    at position [i], and a time-out of its [QTimer], leave every other
    timer of the layout as it was. *)
Theorem timers_independent tk e i j mw :
  j <> i ->
  (exists text, e = ev_title i text)
  \/ (exists checked, e = ev_repeat i checked)
  \/ (exists now, e = ev_start i now)
  \/ e = ev_reset i
  \/ (exists now now', e = ev_timeout i now now') ->
  list_layout (window (handle tk e mw)) !! j = list_layout mw !! j.
Proof.
  intros Hj He.
  assert (Hins : forall w',
            <[i := w']> (list_layout mw) !! j = list_layout mw !! j)
    by (intros w'; apply list_lookup_insert_ne; congruence).
  destruct He as [[text ->] | [[checked ->] | [[now ->] | [-> | (now & now' & ->)]]]];
    cbn [handle].
  - unfold Shell.title_typed.
    destruct (list_layout mw !! i) as [w |] eqn:Hw.
    + destruct (widget_slot_run tk i 0 (TimerWidget.title_typed text) mw w Hw)
        as (_ & Hl & _).
      { left. reflexivity. }
      rewrite Hl. apply Hins.
    + rewrite widget_slot_miss by exact Hw. reflexivity.
  - unfold Shell.repeat_clicked.
    destruct (list_layout mw !! i) as [w |] eqn:Hw.
    + destruct (widget_slot_run tk i 0 (TimerWidget.repeat_clicked checked)
                  mw w Hw) as (_ & Hl & _).
      { left. reflexivity. }
      rewrite Hl. apply Hins.
    + rewrite widget_slot_miss by exact Hw. reflexivity.
  - rewrite start_clicked_run. unfold window. cbn [fst snd].
    destruct (list_layout mw !! i); [apply Hins | reflexivity].
  - unfold reset_clicked.
    destruct (list_layout mw !! i) as [w |] eqn:Hw.
    + destruct (widget_slot_run tk i 0 TimerWidget.reset mw w Hw)
        as (_ & Hl & _); [right; reflexivity |].
      rewrite Hl. apply Hins.
    + rewrite widget_slot_miss by exact Hw. reflexivity.
  - destruct (list_layout mw !! i) as [w |] eqn:Hw.
    + rewrite (tick_timeout_layout tk i now now' mw w Hw). apply Hins.
    + rewrite tick_timeout_miss by exact Hw. reflexivity.
Qed.

(** The time-out that ends and restarts the first sample timer leaves the
    second one as it was. *)
Lemma timers_independent_witness :
  list_layout (window (handle calm (ev_timeout 0 13 14) (desk false None)))
    !! 1%nat
  = list_layout (desk false None) !! 1%nat.
Proof.
  apply (timers_independent calm (ev_timeout 0 13 14) 0 1 (desk false None)).
  - lia.
  - right. right. right. right. exists 13%Q, 14%Q. reflexivity.
Defined.

End ButtonFacts.

(** ** Whole sessions *)

Section SessionInvariants.

Import MainWindow Shell.

Implicit Types (events : list (Toolkit * Event)) (path : string).

(** X4.  After start-up and any list of events, the clear button is
    enabled exactly when the layout holds a timer: every slot that
    changes the number of timers ends in [_on_list_changed]. *)
Theorem clear_button_tracks_layout HAS_SOUND ctor_raises path tray_available
    events :
  let mw := session HAS_SOUND ctor_raises path tray_available events in
  clear_btn mw = has_items (list_layout mw)
  /\ (clear_btn mw = true <-> list_layout mw <> []).
Proof.
  cbv zeta.
  destruct (session_ok HAS_SOUND ctor_raises path tray_available events)
    as (_ & Hclear & _).
  split; [exact Hclear |]. rewrite Hclear.
  destruct (list_layout _); cbn; split; congruence.
Qed.

(** X5.  After start-up and any list of events, every timer of the layout
    has its [running] flag equal to the state of its [QTimer], a clock
    reading in [_last] whenever that [QTimer] is started (so that a tick
    never falls back on the default of its [getattr]), and the pause icon
    on its button exactly while it runs. *)
Theorem session_run_state HAS_SOUND ctor_raises path tray_available events :
  Forall state_ok
    (list_layout (session HAS_SOUND ctor_raises path tray_available events)).
Proof.
  destruct (session_ok HAS_SOUND ctor_raises path tray_available events)
    as (Hall & _).
  eapply Forall_impl; [exact Hall |]. intros w (_ & Hs & _). exact Hs.
Qed.

(** Truncation towards zero is rounding down where nothing is negative. *)
Lemma int_floor (q : Q) : (0 <= q)%Q -> Py.int q = Qfloor q.
Proof.
  destruct q as [n d]. unfold Qle, Py.int, Qfloor. cbn. intros Hn.
  apply Z.quot_div_nonneg; lia.
Qed.

(** X6.  After start-up and any list of events, whatever the clock
    readings were, the label of every timer of the layout shows the
    whole seconds of its remaining time: it is [humanize] of the
    remaining time rounded down. *)
Theorem session_label HAS_SOUND ctor_raises path tray_available events :
  Forall label_ok
    (list_layout (session HAS_SOUND ctor_raises path tray_available events)).
Proof.
  destruct (session_ok HAS_SOUND ctor_raises path tray_available events)
    as (Hall & _).
  eapply Forall_impl; [exact Hall |].
  intros w ((_ & Hrem) & _ & (Hlbl & _)). unfold label_ok.
  rewrite Hlbl, (int_floor (remaining w) Hrem). reflexivity.
Qed.

(** X7.  After start-up and any list of events, whatever the clock
    readings were, every timer of the layout has a total between 1 second
    and 86399 seconds (23 h 59 min 59 s, the most the form can ask for)
    and a remaining time that is not negative; the spin boxes of the form
    hold values of their ranges. *)
Theorem session_bounds HAS_SOUND ctor_raises path tray_available events :
  let mw := session HAS_SOUND ctor_raises path tray_available events in
  Forall bounds_ok (list_layout mw) /\ form_ok mw.
Proof.
  cbv zeta.
  destruct (session_ok HAS_SOUND ctor_raises path tray_available events)
    as (Hall & _ & Hform).
  split; [| exact Hform].
  eapply Forall_impl; [exact Hall |]. intros w (Hb & _). exact Hb.
Qed.

End SessionInvariants.

(** ** Counting down *)

Section Countdown.

Import TimerWidget MainWindow.

Implicit Types (w : TimerWidget) (now t : Q) (nows : list Q).

Lemma ticks_before_due nows : forall w (t0 : Q),
  _last w = Some t0 ->
  Forall (fun t => (t < t0 + remaining w)%Q) nows ->
  ticks_signals nows w = []
  /\ (remaining (ticks nows w)
      == remaining w - (default t0 (last nows) - t0))%Q
  /\ _last (ticks nows w) = Some (default t0 (last nows))
  /\ running (ticks nows w) = running w
  /\ _tick (ticks nows w) = _tick w.
Proof.
  induction nows as [| t nows IH]; intros w t0 Hlast Hdue.
  - cbn. repeat split; [lra | exact Hlast].
  - apply Forall_cons in Hdue as [Ht Hrest].
    assert (Hel : elapsed t w = (t - t0)%Q)
      by (unfold elapsed; rewrite Hlast; reflexivity).
    assert (Hpos : (0 < remaining w - elapsed t w)%Q) by (rewrite Hel; lra).
    cbn [ticks ticks_signals]. rewrite (_on_tick_running t w Hpos).
    cbn [fst snd app].
    set (w1 := with_progress_value _ _).
    assert (Hrem1 : remaining w1 = (remaining w - elapsed t w)%Q)
      by reflexivity.
    destruct (IH w1 t eq_refl) as (Hsig & Hrem & Hl & Hrun & Htick).
    { eapply Forall_impl; [exact Hrest |]. intros t' Ht'. cbn beta in *.
      rewrite Hrem1, Hel. lra. }
    assert (Hdef : default t0 (last (t :: nows)) = default t (last nows)).
    { destruct nows as [| t' nows']; [reflexivity |].
      rewrite last_cons. destruct (last (t' :: nows')) eqn:Hlt;
        [reflexivity |].
      apply last_None in Hlt. discriminate. }
    rewrite Hdef.
    split; [exact Hsig | split; [| split; [exact Hl | split]]].
    + rewrite Hrem, Hrem1, Hel. lra.
    + exact Hrun.
    + exact Htick.
Qed.

(** X8.  The count-down follows the clock, however the ticks are spaced.
    For a timer whose [_last] is [t0], ticks whose clock readings are all
    before [t0 + remaining] emit nothing and leave the remaining time at
    what it was minus the time from [t0] to the latest reading; the next
    tick that reads [t0 + remaining] or later sets the remaining time to
    zero, pauses the timer and emits [finished]. *)
Theorem ticks_follow_clock nows w (t0 : Q) t :
  _last w = Some t0 ->
  Forall (fun t' => (t' < t0 + remaining w)%Q) nows ->
  (t0 + remaining w <= t)%Q ->
  let w' := ticks nows w in
  ticks_signals nows w = []
  /\ (remaining w' == remaining w - (default t0 (last nows) - t0))%Q
  /\ running w' = running w
  /\ snd (_on_tick t w') = [finished]
  /\ remaining (fst (_on_tick t w')) = 0%Q
  /\ running (fst (_on_tick t w')) = false
  /\ _tick (fst (_on_tick t w')) = false.
Proof.
  intros Hlast Hdue Ht. cbv zeta.
  destruct (ticks_before_due nows w t0 Hlast Hdue)
    as (Hsig & Hrem & Hl & Hrun & _).
  assert (Hexp : expires t (ticks nows w)).
  { unfold expires, elapsed. rewrite Hl, Hrem. lra. }
  rewrite (_on_tick_expired t (ticks nows w) Hexp).
  repeat split; assumption.
Qed.

(** A two second timer started at clock reading 10 and ticked at 10.25,
    10.5 and 11.75 has a quarter of a second left; a tick at 12 ends it. *)
Lemma ticks_follow_clock_witness :
  let w' := ticks [(41 # 4)%Q; (21 # 2)%Q; (47 # 4)%Q] egg in
  (remaining w' == 1 # 4)%Q /\ snd (_on_tick 12 w') = [finished].
Proof.
  destruct (ticks_follow_clock [(41 # 4)%Q; (21 # 2)%Q; (47 # 4)%Q] egg
              10 12 eq_refl)
    as (_ & Hrem & _ & Hfin & _).
  - repeat constructor.
  - vm_compute. discriminate.
  - split; [rewrite Hrem; vm_compute; reflexivity | exact Hfin].
Defined.

(** X15.  The time a timer spends paused is not counted, and neither is
    the time between its last tick and the pause: [pause] takes nothing
    off, and [start] begins a new count at its own clock reading.  After
    ticks from [t0], a pause, a start at [s] and more ticks, none of them
    due, the remaining time is the first one minus the two stretches the
    ticks measured. *)
Theorem paused_time_not_counted nows1 nows2 w (t0 s : Q) :
  _last w = Some t0 ->
  Forall (fun t => (t < t0 + remaining w)%Q) nows1 ->
  Forall (fun t => (t < s + remaining (ticks nows1 w))%Q) nows2 ->
  let w1 := ticks nows1 w in
  let w2 := ticks nows2 (start s (pause w1)) in
  remaining (pause w1) = remaining w1
  /\ (remaining w2
      == remaining w
         - ((default t0 (last nows1) - t0) + (default s (last nows2) - s)))%Q
  /\ running w2 = true
  /\ ticks_signals nows2 (start s (pause w1)) = [].
Proof.
  intros Hlast Hdue1 Hdue2. cbv zeta.
  destruct (ticks_before_due nows1 w t0 Hlast Hdue1) as (_ & Hrem1 & _).
  destruct (ticks_before_due nows2 (start s (pause (ticks nows1 w))) s
              eq_refl Hdue2)
    as (Hsig & Hrem2 & _ & Hrun & _).
  split; [reflexivity | split; [| split; [exact Hrun | exact Hsig]]].
  rewrite Hrem2. cbn [remaining start pause with_running with_tick
    with_btn_start with_last]. rewrite Hrem1. lra.
Qed.

(** A two second timer started at 10 and ticked at 10.25, paused, started
    again at 50 and ticked at 50.5, has a second and a quarter left. *)
Lemma paused_time_not_counted_witness :
  let w1 := ticks [(41 # 4)%Q] egg in
  (remaining (ticks [(101 # 2)%Q] (start 50 (pause w1))) == 5 # 4)%Q.
Proof.
  destruct (paused_time_not_counted [(41 # 4)%Q] [(101 # 2)%Q] egg 10 50
              eq_refl)
    as (_ & Hrem & _).
  - repeat constructor.
  - repeat constructor.
  - cbv zeta. rewrite Hrem. vm_compute. reflexivity.
Defined.

End Countdown.

(** ** Ringing *)

Section Ringing.

Import MainWindow Shell.

Implicit Types (mw : MainWindow) (w : TimerWidget) (tk : Toolkit)
  (i : nat) (now : Q) (sp : SoundPlayer).

(** X10.  [play] makes exactly one audible cue, never the sound effect and
    the beep together.  The beep is there exactly when there is no sound
    effect or one of its two calls raises; without a sound effect the beep
    is the only call. *)
Theorem play_one_cue tk sp :
  length (List.filter audible (SoundPlayer.play tk sp)) = 1%nat
  /\ (In (ok QApplication_beep) (SoundPlayer.play tk sp)
      <-> effect sp = None \/ stop_raises tk = true \/ play_raises tk = true)
  /\ (effect sp = None -> SoundPlayer.play tk sp = [ok QApplication_beep]).
Proof.
  unfold SoundPlayer.play, ok, failed.
  destruct (effect sp) as [q |], (stop_raises tk), (play_raises tk); cbn;
    intuition congruence.
Qed.

(** A sound effect whose [stop] raises: the beep alone is audible. *)
Lemma play_one_cue_witness :
  In (ok QApplication_beep)
    (SoundPlayer.play (mkToolkit true false false) studio)
  /\ SoundPlayer.play calm (SoundPlayer.__init__ false false "")
     = [ok QApplication_beep].
Proof.
  destruct (play_one_cue (mkToolkit true false false) studio)
    as (_ & Hbeep & _).
  destruct (play_one_cue calm (SoundPlayer.__init__ false false ""))
    as (_ & _ & Honly).
  split; [apply Hbeep; right; left; reflexivity | apply Honly; reflexivity].
Defined.

(** X11.  When a timer expires, the overlay and the balloon name it the
    same way: the subtitle of the overlay is the title of the timer
    without its surrounding white space, or "Timer" when nothing is left
    of it, and the balloon says that name followed by " is done.".  The
    name is never empty and carries no surrounding white space. *)
Theorem alarm_names_timer tk i now now' mw w :
  list_layout mw !! i = Some w ->
  _tick w = true ->
  expires now w ->
  let r := tick_timeout tk i now now' mw in
  announced w <> "" /\ Py.strip (announced w) = announced w
  /\ (exists ov, _overlay (window r) = Some ov
                 /\ AlarmOverlay.subtitle ov = announced w)
  /\ (tray mw <> None ->
      In (mkEntry (tray_showMessage "SmartTimers"
                     (announced w ++ " is done.")%string 5000)
                  (showMessage_raises tk))
         (calls r)).
Proof.
  intros Hw Htick Hexp. cbv zeta.
  destruct (announced_clean w) as [Hne Hstrip].
  destruct (tick_timeout_expired_run tk i now now' mw w Hw Htick Hexp)
    as (_ & Ho & Hc).
  split; [exact Hne | split; [exact Hstrip | split]].
  - exists (shown_overlay (announced w)). split; [exact Ho |].
    unfold AlarmOverlay.subtitle. cbn [_title shown_overlay
      AlarmOverlay.show_full AlarmOverlay.__init__].
    rewrite Hstrip. destruct (announced w); [congruence | reflexivity].
  - intros Htray. rewrite Hc. unfold notify_log. apply in_or_app. right.
    destruct (tray mw); [| congruence]. left. unfold balloon.
    destruct (announced w); [congruence | reflexivity].
Qed.

(** A timer whose title is all white space is announced as Timer. *)
Lemma alarm_names_timer_witness :
  let w := TimerWidget.start 10 (TimerWidget.with_title_edit "   " egg) in
  let mw := MainWindow.with_list_layout [w] (desk false (Some tray_icon)) in
  In (ok (tray_showMessage "SmartTimers" "Timer is done." 5000))
     (calls (tick_timeout calm 0 13 13 mw)).
Proof.
  cbv zeta.
  destruct (alarm_names_timer calm 0
              13 13
              (MainWindow.with_list_layout
                 [TimerWidget.start 10 (TimerWidget.with_title_edit "   " egg)]
                 (desk false (Some tray_icon)))
              (TimerWidget.start 10 (TimerWidget.with_title_edit "   " egg))
              eq_refl eq_refl)
    as (_ & _ & _ & Hballoon).
  - vm_compute. discriminate.
  - apply Hballoon. discriminate.
Defined.

(** X9.  A stopped timer with nothing left, as a one-shot timer is after
    it has expired, rings again as soon as it is started: with no reset
    in between, the first tick after the start (its clock reading not
    before the one of the start) notifies. *)
Theorem zero_timer_rings_at_once tk i (s t t' : Q) mw w :
  list_layout mw !! i = Some w ->
  running w = false ->
  (remaining w <= 0)%Q ->
  (s <= t)%Q ->
  let mw1 := window (start_clicked i s mw) in
  let r := tick_timeout tk i t t' mw1 in
  calls r = notify_log tk (announced w) mw
  /\ _overlay (window r) = Some (shown_overlay (announced w)).
Proof.
  intros Hw Hrun Hrem Hst. cbv zeta.
  assert (Hi : (i < length (list_layout mw))%nat)
    by (eapply lookup_lt_Some; exact Hw).
  set (w1 := TimerWidget.start s w).
  set (mw1 := with_list_layout (<[i := w1]> (list_layout mw)) mw).
  assert (Hstart : window (start_clicked i s mw) = mw1).
  { rewrite start_clicked_run, Hw. unfold TimerWidget.toggle.
    rewrite Hrun. reflexivity. }
  rewrite Hstart.
  assert (Hw1 : list_layout mw1 !! i = Some w1)
    by (apply list_lookup_insert_eq; exact Hi).
  assert (Hexp : expires t w1).
  { unfold expires, elapsed. cbn. lra. }
  destruct (tick_timeout_expired_run tk i t t' mw1 w1 Hw1 eq_refl Hexp)
    as (_ & Ho & Hc).
  split; [exact Hc | exact Ho].
Qed.

(** The one-shot sample timer, expired at 13 and started again at 20,
    rings at the tick of 20.25. *)
Lemma zero_timer_rings_at_once_witness :
  let w := fst (TimerWidget._on_tick 13 egg) in
  let mw := MainWindow.with_list_layout [w] (desk false None) in
  calls (tick_timeout calm 0 (81 # 4) (81 # 4)
           (window (start_clicked 0 20 mw)))
  = [ok effect_stop; ok effect_play].
Proof.
  cbv zeta.
  apply (zero_timer_rings_at_once calm 0 20 (81 # 4) (81 # 4)
           (MainWindow.with_list_layout [fst (TimerWidget._on_tick 13 egg)]
              (desk false None))
           (fst (TimerWidget._on_tick 13 egg))).
  - reflexivity.
  - reflexivity.
  - vm_compute. discriminate.
  - vm_compute. discriminate.
Defined.

End Ringing.

(** ** What rings *)

Section OnlyExpiryRings.

Import MainWindow Shell.

Implicit Types (mw : MainWindow) (w : TimerWidget) (tk : Toolkit)
  (i k : nat) (now : Q) (e : Event).

Lemma silent_same mw mw' :
  _overlay mw' = _overlay mw -> silent mw (tt, mw', []).
Proof. intros Ho. repeat split. left. exact Ho. Qed.

Lemma silent_not_rings mw r : silent mw r -> ~ rings mw r.
Proof.
  intros (Ha & Hb & Ho) [Hr | [Hr | (ov & Hov & Hvis & Hnew)]];
    [congruence | congruence |].
  destruct Ho as [Ho | (ov' & Hov' & Hvis')]; [congruence |].
  rewrite Hov in Hov'. injection Hov' as <-. congruence.
Qed.

Lemma silent_widget_slot tk i now f mw :
  (forall w, snd (f w) = [] \/ snd (f w) = [changed]) ->
  silent mw ((sigs ← on_widget i f; for_each (deliver tk i now) sigs) mw).
Proof.
  intros Hsig. destruct (list_layout mw !! i) as [w |] eqn:Hw.
  - destruct (widget_slot_run tk i now f mw w Hw (Hsig w))
      as (Hc & _ & Ho & _).
    unfold silent. rewrite Hc. repeat split. left. exact Ho.
  - rewrite widget_slot_miss by exact Hw. apply silent_same. reflexivity.
Qed.

(** X12.  Nothing but the time-out that ends a timer rings.  If handling
    an event makes an audible cue, asks the tray for a balloon or puts an
    overlay on screen, then the event is a time-out of a timer of the
    layout whose [QTimer] is started and whose tick brings the remaining
    time to zero or below. *)
Theorem only_expiry_rings tk e mw :
  rings mw (handle tk e mw) ->
  exists i now now' w,
    e = ev_timeout i now now'
    /\ list_layout mw !! i = Some w
    /\ _tick w = true
    /\ expires now w.
Proof.
  intros Hr.
  assert (Hquiet : silent mw (handle tk e mw) -> False)
    by (intros Hs; exact (silent_not_rings mw _ Hs Hr)).
  destruct e as [| k | | name h m s rep | checked | i text | i checked
                 | i now | i | i | i now now' | k]; cbn [handle] in *;
    try lazymatch goal with
        | H : rings _ (tick_timeout _ _ _ _ _) |- _ => fail
        | _ => exfalso; apply Hquiet
        end.
  - rewrite add_timer_from_inputs_run.
    destruct (form_total mw <=? 0); [| apply silent_same; reflexivity].
    repeat split. left. reflexivity.
  - rewrite preset_clicked_run.
    destruct (presets !! k) as [[label m] |]; apply silent_same; reflexivity.
  - rewrite clear_all_run. apply silent_same. reflexivity.
  - apply silent_same. reflexivity.
  - apply silent_same. reflexivity.
  - apply silent_widget_slot. intros w. left. reflexivity.
  - apply silent_widget_slot. intros w. left. reflexivity.
  - rewrite start_clicked_run. apply silent_same.
    destruct (list_layout mw !! i); reflexivity.
  - apply silent_widget_slot. intros w. right. reflexivity.
  - rewrite delete_clicked_run. apply silent_same.
    destruct (list_layout mw !! i); reflexivity.
  - destruct (list_layout mw !! i) as [w |] eqn:Hw.
    + destruct (_tick w) eqn:Htick.
      * destruct (Qlt_le_dec 0 (remaining w - elapsed now w))
          as [Hpos | Hexp].
        -- exfalso. apply Hquiet.
           rewrite (tick_timeout_running tk i now now' mw w Hw Htick Hpos).
           apply silent_same. reflexivity.
        -- exists i, now, now', w. auto.
      * exfalso. apply Hquiet.
        rewrite (tick_timeout_stopped tk i now now' mw w Hw Htick).
        apply silent_same. reflexivity.
    + exfalso. apply Hquiet. rewrite tick_timeout_miss by exact Hw.
      apply silent_same. reflexivity.
  - rewrite overlay_button_run.
    destruct (_overlay mw) as [ov |] eqn:Hov;
      [| apply silent_same; reflexivity].
    destruct (visible ov); [| apply silent_same; reflexivity].
    destruct (AlarmOverlay.buttons !! k) as [[label [m |]] |];
      [| | apply silent_same; reflexivity];
      (repeat split; right; exists (AlarmOverlay.hide ov);
       split; reflexivity).
Qed.

(** The sound of the sample window comes from the time-out that ends its
    first timer. *)
Lemma only_expiry_rings_witness :
  exists i now now' w,
    ev_timeout 0 13 14 = ev_timeout i now now'
    /\ list_layout (desk false None) !! i = Some w
    /\ _tick w = true
    /\ expires now w.
Proof.
  apply (only_expiry_rings calm (ev_timeout 0 13 14) (desk false None)).
  left. vm_compute. reflexivity.
Defined.

End OnlyExpiryRings.

(** ** Labels *)

Section Labels.

Lemma digit_inj (a b : Z) :
  0 <= a <= 9 -> 0 <= b <= 9 -> digit a = digit b -> a = b.
Proof.
  intros Ha Hb Heq. unfold digit in Heq.
  apply (f_equal nat_of_ascii) in Heq.
  rewrite !nat_ascii_embedding in Heq by lia. lia.
Qed.

Lemma two_digits_inj (a b : Z) :
  0 <= a < 100 -> 0 <= b < 100 -> two_digits a = two_digits b -> a = b.
Proof.
  intros Ha Hb Heq. unfold two_digits in Heq.
  injection Heq as Hhi Hlo.
  assert (Hqa : 0 <= a / 10 < 10)
    by (split; [apply Z.div_pos; lia | apply Z.div_lt_upper_bound; lia]).
  assert (Hqb : 0 <= b / 10 < 10)
    by (split; [apply Z.div_pos; lia | apply Z.div_lt_upper_bound; lia]).
  pose proof (Z.mod_pos_bound a 10). pose proof (Z.mod_pos_bound b 10).
  assert (Hq : a / 10 = b / 10) by (apply digit_inj; [lia | lia | exact Hhi]).
  assert (Hr : a mod 10 = b mod 10)
    by (apply digit_inj; [lia | lia | exact Hlo]).
  rewrite (Z.div_mod a 10), (Z.div_mod b 10) by lia. congruence.
Qed.

Lemma humanize_short (s : Z) :
  0 <= s < 3600 ->
  humanize s = (two_digits (s / 60) ++ ":" ++ two_digits (s mod 60))%string.
Proof.
  intros Hs. rewrite humanize_clamped by lia.
  rewrite (Z.div_small s 3600), (Z.mod_small s 3600) by lia.
  cbn [Z.eqb negb].
  pose proof (Z.mod_pos_bound s 60).
  rewrite !fmt_02d_two_digits; [reflexivity | lia |].
  split; [apply Z.div_pos; lia | apply Z.div_lt_upper_bound; lia].
Qed.

Lemma humanize_long (s : Z) :
  3600 <= s < 360000 ->
  humanize s =
    (two_digits (s / 3600) ++ ":" ++ two_digits ((s mod 3600) / 60) ++ ":"
     ++ two_digits (s mod 60))%string.
Proof.
  intros Hs. rewrite humanize_clamped by lia.
  assert (Hh : 1 <= s / 3600 < 100)
    by (split; [apply Z.div_le_lower_bound; lia
               | apply Z.div_lt_upper_bound; lia]).
  destruct (Z.eqb_spec (s / 3600) 0) as [H0 | _]; [lia |]. cbn [negb].
  pose proof (Z.mod_pos_bound s 3600). pose proof (Z.mod_pos_bound s 60).
  rewrite !fmt_02d_two_digits; [reflexivity | lia | | lia].
  split; [apply Z.div_pos; lia | apply Z.div_lt_upper_bound; lia].
Qed.

(** X13.  Below one hundred hours the label tells the whole seconds: it
    has five characters below one hour and eight from one hour on, and
    two different numbers of seconds never get the same label. *)
Theorem humanize_injective (a b : Z) :
  0 <= a < 360000 ->
  0 <= b < 360000 ->
  String.length (humanize a) = (if a <? 3600 then 5%nat else 8%nat)
  /\ (humanize a = humanize b -> a = b).
Proof.
  intros Ha Hb.
  pose proof (Z.mod_pos_bound a 60). pose proof (Z.mod_pos_bound b 60).
  pose proof (Z.mod_pos_bound a 3600). pose proof (Z.mod_pos_bound b 3600).
  assert (Hm60 : forall x, 0 <= x < 3600 -> 0 <= x / 60 < 100).
  { intros x Hx.
    split; [apply Z.div_pos; lia | apply Z.div_lt_upper_bound; lia]. }
  assert (Hh : forall x, 0 <= x < 360000 -> 0 <= x / 3600 < 100).
  { intros x Hx.
    split; [apply Z.div_pos; lia | apply Z.div_lt_upper_bound; lia]. }
  destruct (Z.ltb_spec a 3600) as [Hsa | Hla].
  - rewrite (humanize_short a) by lia. split; [reflexivity |].
    destruct (Z.ltb_spec b 3600) as [Hsb | Hlb].
    + rewrite (humanize_short b) by lia. unfold two_digits. cbn.
      intros [= E1 E2 E3 E4].
      assert (Hq : a / 60 = b / 60).
      { apply two_digits_inj; [apply Hm60; lia | apply Hm60; lia |].
        unfold two_digits. congruence. }
      assert (Hr : a mod 60 = b mod 60).
      { apply two_digits_inj; [lia | lia |]. unfold two_digits. congruence. }
      rewrite (Z.div_mod a 60), (Z.div_mod b 60) by lia. congruence.
    + rewrite (humanize_long b) by lia. unfold two_digits. cbn.
      discriminate.
  - rewrite (humanize_long a) by lia. split; [reflexivity |].
    destruct (Z.ltb_spec b 3600) as [Hsb | Hlb].
    + rewrite (humanize_short b) by lia. unfold two_digits. cbn.
      discriminate.
    + rewrite (humanize_long b) by lia. unfold two_digits. cbn.
      intros [= E1 E2 E3 E4 E5 E6].
      assert (Hq : a / 3600 = b / 3600).
      { apply two_digits_inj; [apply Hh; lia | apply Hh; lia |].
        unfold two_digits. congruence. }
      assert (Hmin : (a mod 3600) / 60 = (b mod 3600) / 60).
      { apply two_digits_inj; [apply Hm60; lia | apply Hm60; lia |].
        unfold two_digits. congruence. }
      assert (Hsec : a mod 60 = b mod 60).
      { apply two_digits_inj; [lia | lia |]. unfold two_digits. congruence. }
      assert (Ha60 : (a mod 3600) mod 60 = a mod 60).
      { apply Z.mod_mod_divide. exists 60. reflexivity. }
      assert (Hb60 : (b mod 3600) mod 60 = b mod 60).
      { apply Z.mod_mod_divide. exists 60. reflexivity. }
      assert (Hrem : a mod 3600 = b mod 3600).
      { rewrite (Z.div_mod (a mod 3600) 60), (Z.div_mod (b mod 3600) 60)
          by lia.
        congruence. }
      rewrite (Z.div_mod a 3600), (Z.div_mod b 3600) by lia. congruence.
Qed.

(** The labels of 59 and 3600 seconds, and what equal labels give. *)
Lemma humanize_injective_witness :
  String.length (humanize 59) = 5%nat
  /\ String.length (humanize 3600) = 8%nat
  /\ (humanize 59 = humanize 59 -> 59 = 59).
Proof.
  destruct (humanize_injective 59 59) as (Hshort & Hinj); [lia | lia |].
  destruct (humanize_injective 3600 59) as (Hlong & _); [lia | lia |].
  split; [exact Hshort | split; [exact Hlong | exact Hinj]].
Defined.

End Labels.
